(** * PayTabs payment processor plugin: a shallow embedding

    The development follows the two source modules of the plugin:

    - [paytabs/processors.py]: class [PayTabs] with
      [_get_user_profile_data], [_get_course_id_title],
      [get_transaction_parameters] and [handle_processor_response];
    - [paytabs/views.py]: class [PayTabsResponseView] with
      [_verify_response], [_get_basket] and [post].

    Python dictionaries are finite maps with string keys, Python
    exceptions are an explicit error type, and the side effects of the
    view (HTTP calls to the gateway, database writes, logging, order
    creation) are threaded through an explicit system state. *)

From Stdlib Require Import ZArith Lia.
From stdpp Require Import gmap strings list fin_maps pretty.

Open Scope Z_scope.
Open Scope string_scope.
Open Scope list_scope.

(** ** Python values *)

(** The JSON scalars the gateway sends and the values the code binds to
    its locals. *)
Inductive PyVal :=
| PyNone
| PyStr (s : string)
| PyInt (n : Z).

#[global] Instance PyVal_eq_dec : EqDecision PyVal.
Proof. solve_decision. Defined.

Abbreviation Dict := (gmap string PyVal).

(** [str(v)], which is what ['{}'.format(v)] inserts. *)
Definition py_str (v : PyVal) : string :=
  match v with
  | PyNone => "None"
  | PyStr s => s
  | PyInt n => pretty n
  end.

(** [bool(v)]. *)
Definition py_truthy (v : PyVal) : bool :=
  match v with
  | PyNone => false
  | PyStr s => negb (bool_decide (s = ""))
  | PyInt n => negb (bool_decide (n = 0))
  end.

(** [a == b] on these scalars. *)
Definition py_eq (a b : PyVal) : bool := bool_decide (a = b).

(** [v in l] for a list [l] of strings. *)
Definition py_in (v : PyVal) (l : list string) : bool :=
  existsb (fun s => py_eq v (PyStr s)) l.

(** ** Exceptions and outcomes *)

Inductive PyExc :=
| PayTabsException (msg : string)
| KeyError (key : string)
| ValueError
| TypeError
| AttributeError
| ObjectDoesNotExist
| OtherError (class_name : string).

(** [exc.__class__.__name__]. *)
Definition exc_class_name (e : PyExc) : string :=
  match e with
  | PayTabsException _ => "PayTabsException"
  | KeyError _ => "KeyError"
  | ValueError => "ValueError"
  | TypeError => "TypeError"
  | AttributeError => "AttributeError"
  | ObjectDoesNotExist => "ObjectDoesNotExist"
  | OtherError n => n
  end.

Inductive Outcome (A : Type) :=
| Ok (a : A)
| Raise (e : PyExc).
Arguments Ok {A} a.
Arguments Raise {A} e.

Definition is_ok {A} (o : Outcome A) : bool :=
  match o with Ok _ => true | Raise _ => false end.

(** The error monad of pure, fallible code. *)
Definition obind {A B} (o : Outcome A) (k : A -> Outcome B) : Outcome B :=
  match o with
  | Ok a => k a
  | Raise e => Raise e
  end.

Declare Scope outcome_scope.
Delimit Scope outcome_scope with out.
Notation "x <- c ; k" := (obind c (fun x => k))
  (at level 100, c at next level, right associativity) : outcome_scope.

(** [d[k]]: raises [KeyError] on a missing key. *)
Definition getitem (d : Dict) (k : string) : Outcome PyVal :=
  match d !! k with
  | Some v => Ok v
  | None => Raise (KeyError k)
  end.

(** [d.get(k, dflt)]. *)
Definition dict_get (d : Dict) (k : string) (dflt : PyVal) : PyVal :=
  default dflt (d !! k).

(** [sub] occurs in [s]. *)
Definition contains (s sub : string) : Prop :=
  exists pre suf, s = pre +:+ sub +:+ suf.

(** ** Data model of the host platform

    Only the attributes the plugin reads are kept. *)

(** A finite [decimal.Decimal]: [coefficient * 10 ^ exponent]. *)
Record Decimal := { coefficient : Z; exponent : Z }.

(** A basket line with its product; [product_course] is the id of
    [line.product.course] when the product has a course. *)
Record Line := {
  product_course : option string;
  product_title : string;
  quantity : Z;
  line_price_incl_tax_incl_discounts : Decimal
}.

(** What [user.account_details(request)] returned: the value of
    [.get('country')] ([PyNone] when the key is missing) and the list
    under ['extended_profile'] when that key is there. *)
Record AccountDetails := {
  country : PyVal;
  extended_profile : option (list Dict)
}.

Record User := {
  email : PyVal;
  account_details : AccountDetails
}.

Record Basket := {
  Basket_id : Z;
  order_number : string;
  owner : User;
  all_lines : list Line;
  total_incl_tax : Decimal;
  currency : PyVal
}.

(** The Django request: [client_ip] and [is_routable] are the pair
    returned by [get_client_ip(request)], [language_cookie] is
    [request.COOKIES.get(settings.LANGUAGE_COOKIE_NAME)]. *)
Record Request := {
  scheme : string;
  get_host : string;
  client_ip : PyVal;
  is_routable : bool;
  language_cookie : option string;
  POST : gmap string string
}.

Inductive HttpResponse :=
| Redirect (url : string).

(** The host's [HandledProcessorResponse] named tuple. *)
Record HandledProcessorResponse := {
  hpr_transaction_id : PyVal;
  hpr_total : PyVal;
  hpr_currency : PyVal;
  hpr_card_number : string;
  hpr_card_type : PyVal
}.

(** A row of the host's [PaymentProcessorResponse] table. *)
Record PaymentProcessorResponse := {
  ppr_id : Z;
  ppr_processor_name : string;
  ppr_transaction_id : PyVal;
  ppr_response : gmap string string;
  ppr_basket : option Z
}.

(** The database: baskets, the audit table, and the tables the host's
    order placement writes. *)
Record Db := {
  baskets : gmap Z Basket;
  processor_responses : list PaymentProcessorResponse;
  payment_sources : list (Z * HandledProcessorResponse);
  orders : list string
}.

(** ** The host platform and the outside world

    Everything the plugin calls and does not define: Django, Oscar, the
    ecommerce checkout mixin, [requests], [pycountry], [decimal] and the
    builtin [int]. *)
Record Host := {
  (** [django.urls.reverse] *)
  reverse : string -> string;
  (** [settings.LANGUAGE_CODE] *)
  LANGUAGE_CODE : string;
  (** the processor configuration of the site,
      [settings.PAYMENT_PROCESSOR_CONFIG[partner][NAME]] *)
  site_configuration : Dict;
  (** [requests.post(url, data=data).json()] *)
  requests_post_json : string -> Dict -> Outcome Dict;
  (** [pycountry.countries.get(alpha_2=c).alpha_3] *)
  pycountry_alpha_3 : PyVal -> Outcome string;
  (** [price / quantity] and [str(price)] of [decimal.Decimal] *)
  decimal_div : Decimal -> Z -> Outcome Decimal;
  decimal_str : Decimal -> string;
  (** builtin [int(s)] on a string; [None] is [ValueError] *)
  int_of_str : string -> option Z;
  (** [OrderNumberGenerator().basket_id(order_number)] *)
  order_number_basket_id : PyVal -> Outcome PyVal;
  (** [Applicator().apply(basket, basket.owner, request)] *)
  applicator_apply : Basket -> Outcome Basket;
  (** [EdxOrderPlacementMixin.handle_payment(response, basket)] *)
  handle_payment : Dict -> Basket -> Db -> Db * Outcome unit;
  (** [EdxOrderPlacementMixin.create_order(request, basket)] *)
  create_order : Basket -> Db -> Db * Outcome unit;
  (** [get_receipt_page_url(order_number, site_configuration)] *)
  get_receipt_page_url : string -> string
}.

(** ** Effects *)

Inductive LogEntry :=
| LogInvalidNotification (post : gmap string string)
| LogReceivedNotification (payment_reference : string)
| LogVerificationError (code : PyVal) (post : gmap string string)
| LogNonExistentBasket (basket_id : PyVal)
| LogPaymentDidNotComplete (basket : Z) (exc : string) (entry : Z)
| LogHandlePaymentFailed (basket : Z) (exc : string)
| LogCannotIssueCredit.

Inductive Event :=
| EvHttp (url : string) (data : Dict)
| EvBasketGet (id : Z)
| EvApplyOffers (id : Z)
| EvRecordResponse (r : PaymentProcessorResponse)
| EvAtomicEnter
| EvHandlePayment (id : Z)
| EvCommit
| EvRollback
| EvCreateOrder (id : Z)
| EvLog (l : LogEntry).

(** The state a request handler runs in: the history of its effects, in
    order, and the database. *)
Record Sys := {
  trace : list Event;
  db : Db
}.

(** State and exceptions. *)
Definition M (A : Type) : Type := Sys -> Sys * Outcome A.

Definition M_ret {A} (a : A) : M A := fun s => (s, Ok a).

Definition M_raise {A} (e : PyExc) : M A := fun s => (s, Raise e).

Definition M_bind {A B} (c : M A) (k : A -> M B) : M B :=
  fun s =>
    match c s with
    | (s', Ok a) => k a s'
    | (s', Raise e) => (s', Raise e)
    end.

Definition lift {A} (o : Outcome A) : M A := fun s => (s, o).

Definition emit (e : Event) : M unit :=
  fun s => ({| trace := trace s ++ [e]; db := db s |}, Ok tt).

Definition logger (l : LogEntry) : M unit := emit (EvLog l).

(** A host routine that works on the database. *)
Definition on_db {A} (f : Db -> Db * Outcome A) : M A :=
  fun s => let '(d, o) := f (db s) in ({| trace := trace s; db := d |}, o).

(** [try: body except <classes>: handler], where [handles] tells the
    caught classes. *)
Definition try_except {A} (body : M A) (handles : PyExc -> bool) (handler : PyExc -> M A)
  : M A :=
  fun s =>
    match body s with
    | (s', Ok a) => (s', Ok a)
    | (s', Raise e) => if handles e then handler e s' else (s', Raise e)
    end.

(** [with transaction.atomic(): body]: the database changes of a body
    that raises are undone. *)
Definition atomic {A} (body : M A) : M A :=
  fun s =>
    match (M_bind (emit EvAtomicEnter) (fun _ => body)) s with
    | (s', Ok a) => ({| trace := trace s' ++ [EvCommit]; db := db s' |}, Ok a)
    | (s', Raise e) => ({| trace := trace s' ++ [EvRollback]; db := db s |}, Raise e)
    end.

Declare Scope M_scope.
Delimit Scope M_scope with M.
Notation "x <- c ;; k" := (M_bind c (fun x => k))
  (at level 100, c at next level, right associativity) : M_scope.
Notation "c ;; k" := (M_bind c (fun _ => k))
  (at level 100, right associativity) : M_scope.

(** ** processors.py *)

Definition processor_error_message : string :=
  "PayTabs raised an error when trying to process the payment".

(** [PayTabs.handle_processor_response(response, basket=None)]; the
    basket argument is not used by the body. *)
Definition handle_processor_response (response : Dict)
  : Outcome HandledProcessorResponse :=
  (code <- getitem response "response_code";
   if negb (py_eq code (PyStr "100")) then
     Raise (PayTabsException processor_error_message)
   else
     let currency := dict_get response "currency" PyNone in
     let total := dict_get response "amount" PyNone in
     let transaction_id := dict_get response "transaction_id" PyNone in
     let card_first_six_digits :=
       dict_get response "card_first_six_digits" (PyStr "XXXXXX") in
     let card_last_four_digits :=
       dict_get response "card_last_four_digits" (PyStr "XXXX") in
     let card_number :=
       py_str card_first_six_digits +:+ "XXXXXX" +:+ py_str card_last_four_digits in
     let card_type := dict_get response "card_brand" PyNone in
     Ok {| hpr_transaction_id := transaction_id;
           hpr_total := total;
           hpr_currency := currency;
           hpr_card_number := card_number;
           hpr_card_type := card_type |})%out.

(** The processor object: [PayTabs.__init__] reads three keys of the
    site's processor configuration and keeps the configuration. *)
Record PayTabs := {
  merchant_email : PyVal;
  secret_key : PyVal;
  return_base_url : PyVal;
  configuration : Dict
}.

Definition NAME : string := "paytabs".

(** [PayTabs(site)]. *)
Definition PayTabs_init (h : Host) : Outcome PayTabs :=
  (let configuration := site_configuration h in
   merchant_email <- getitem configuration "merchant_email";
   secret_key <- getitem configuration "secret_key";
   return_base_url <- getitem configuration "return_base_url";
   Ok {| merchant_email := merchant_email;
         secret_key := secret_key;
         return_base_url := return_base_url;
         configuration := configuration |})%out.

(** The helper [get_extended_field] of [_get_user_profile_data]:
    [next(...)] over the fields whose ['field_name'] is [field_name]. *)
Fixpoint get_extended_field_in (fields : list Dict) (field_name : string)
    (default_val : PyVal) : Outcome PyVal :=
  match fields with
  | [] => Ok default_val
  | field :: rest =>
      (name <- getitem field "field_name";
       if py_eq name (PyStr field_name)
       then Ok (dict_get field "field_value" default_val)
       else get_extended_field_in rest field_name default_val)%out
  end.

Definition get_extended_field (account_details : AccountDetails)
    (field_name : string) (default_val : PyVal) : Outcome PyVal :=
  match extended_profile account_details with
  | None => Raise (KeyError "extended_profile")
  | Some fields => get_extended_field_in fields field_name default_val
  end.

Record UserProfileData := {
  first_name : PyVal;
  last_name : PyVal;
  mailing_address : PyVal;
  city : PyVal;
  country_code : string;
  postal_code : PyVal;
  state : PyVal
}.

Definition country_not_set_message : string :=
  "Country must be set in user account settings".

(** [PayTabs._get_user_profile_data(user, request)]. *)
Definition _get_user_profile_data (h : Host) (user : User)
  : Outcome UserProfileData :=
  (let account_details := account_details user in
   country_code <-
     (if py_truthy (country account_details)
      then pycountry_alpha_3 h (country account_details)
      else Raise (PayTabsException country_not_set_message));
   first_name <- get_extended_field account_details "first_name" PyNone;
   last_name <- get_extended_field account_details "last_name" PyNone;
   mailing_address <- get_extended_field account_details "mailing_address" PyNone;
   city <- get_extended_field account_details "city" PyNone;
   postal_code <- get_extended_field account_details "ZIP/Postal Code" (PyStr "11564");
   state <- get_extended_field account_details "state" PyNone;
   Ok {| first_name := first_name;
         last_name := last_name;
         mailing_address := mailing_address;
         city := city;
         country_code := country_code;
         postal_code := postal_code;
         state := state |})%out.

(** [PayTabs._get_course_id_title(line)]. *)
Definition _get_course_id_title (line : Line) : string :=
  let course_id :=
    match product_course line with
    | Some id => id +:+ "|"
    | None => ""
    end in
  course_id +:+ product_title line.

(** The three lists [products['names']], [products['quantities']] and
    [products['prices']]. *)
Record Products := {
  names : list string;
  quantities : list string;
  prices : list string
}.

(** The loop over [basket.all_lines()]. *)
Fixpoint collect_products (h : Host) (lines : list Line) (products : Products)
  : Outcome Products :=
  match lines with
  | [] => Ok products
  | line :: rest =>
      (unit_price <- decimal_div h (line_price_incl_tax_incl_discounts line) (quantity line);
       collect_products h rest
         {| names := names products ++ [_get_course_id_title line];
            quantities := quantities products ++ [pretty (quantity line)];
            prices := prices products ++ [decimal_str h unit_price] |})%out
  end.

Definition create_pay_page_url : string :=
  "https://www.paytabs.com/apiv2/create_pay_page".

Definition create_pay_page_error (response_code result : PyVal) : string :=
  "PayTabs raised an error when trying to process the payment (code: "
  +:+ py_str response_code +:+ ", message: " +:+ py_str result +:+ ")".

(** [requests.post(url, data=data).json()], recorded in the trace. *)
Definition requests_post (h : Host) (url : string) (data : Dict) : M Dict :=
  (emit (EvHttp url data);; lift (requests_post_json h url data))%M.

(** [PayTabs.get_transaction_parameters(basket, request)]; the result
    is the value under ['payment_page_url']. *)
Definition get_transaction_parameters (h : Host) (self : PayTabs)
    (basket : Basket) (request : Request) : M PyVal :=
  (let site_url := scheme request +:+ "://" +:+ get_host request in
   let return_url :=
     py_str (return_base_url self) +:+ reverse h "paytabs:paytabs-submit" in
   let ip_merchant := PyStr "-" in
   let ip_customer := if is_routable request then client_ip request else PyStr "-" in
   let title := "Order: " +:+ order_number basket in
   let user := owner basket in
   user_profile_data <- lift (_get_user_profile_data h user);;
   products <- lift (collect_products h (all_lines basket)
                       {| names := []; quantities := []; prices := [] |});;
   let invoiced_names := String.concat " || " (names products) in
   let invoiced_quantities := String.concat " || " (quantities products) in
   let invoiced_prices := String.concat " || " (prices products) in
   let other_charges := "0.0" in
   let amount := decimal_str h (total_incl_tax basket) in
   let discount := "0.0" in
   let reference_no := order_number basket in
   let msg_lang :=
     match language_cookie request with
     | Some c => if bool_decide (c = "") then LANGUAGE_CODE h else c
     | None => LANGUAGE_CODE h
     end in
   let cms_with_version := "Open edX E-Commerce" in
   cc_phone_number <-
     lift (getitem (configuration self) "default_phone_number_country_code");;
   let pay_data : Dict := list_to_map [
     ("merchant_email", merchant_email self);
     ("secret_key", secret_key self);
     ("site_url", PyStr site_url);
     ("return_url", PyStr return_url);
     ("title", PyStr title);
     ("cc_first_name", first_name user_profile_data);
     ("cc_last_name", last_name user_profile_data);
     ("cc_phone_number", cc_phone_number);
     ("phone_number", PyStr "Phone Number");
     ("email", email user);
     ("products_per_title", PyStr invoiced_names);
     ("unit_price", PyStr invoiced_prices);
     ("quantity", PyStr invoiced_quantities);
     ("other_charges", PyStr other_charges);
     ("amount", PyStr amount);
     ("discount", PyStr discount);
     ("currency", currency basket);
     ("reference_no", PyStr reference_no);
     ("ip_customer", ip_customer);
     ("ip_merchant", ip_merchant);
     ("billing_address", mailing_address user_profile_data);
     ("city", city user_profile_data);
     ("state", state user_profile_data);
     ("postal_code", postal_code user_profile_data);
     ("country", PyStr (country_code user_profile_data));
     ("shipping_first_name", first_name user_profile_data);
     ("shipping_last_name", last_name user_profile_data);
     ("address_shipping", mailing_address user_profile_data);
     ("state_shipping", state user_profile_data);
     ("city_shipping", city user_profile_data);
     ("postal_code_shipping", postal_code user_profile_data);
     ("country_shipping", PyStr (country_code user_profile_data));
     ("msg_lang", PyStr msg_lang);
     ("cms_with_version", PyStr cms_with_version)
   ] in
   response <- requests_post h create_pay_page_url pay_data;;
   if negb (py_eq (dict_get response "response_code" PyNone) (PyStr "4012")) then
     response_code <- lift (getitem response "response_code");;
     result <- lift (getitem response "result");;
     M_raise (PayTabsException (create_pay_page_error response_code result))
   else
     let payment_url := dict_get response "payment_url" PyNone in
     M_ret payment_url)%M.

(** [PayTabs.issue_credit]: logs and returns nothing. *)
Definition issue_credit : M unit := logger LogCannotIssueCredit.

(** ** views.py *)

Definition PAYTABS_SUCCESS_CODES : list string := ["100"; "111"].

(** The property [PayTabsResponseView.payment_processor]: every access
    builds a processor from the site's configuration. *)
Definition payment_processor (h : Host) : M PayTabs := lift (PayTabs_init h).

Definition verify_payment_url : string :=
  "https://www.paytabs.com/apiv2/verify_payment".

(** [PayTabsResponseView._verify_response(request, payment_reference)]. *)
Definition _verify_response (h : Host) (payment_reference : string) : M Dict :=
  (_ <- payment_processor h;;
   let configuration := site_configuration h in
   merchant_email <- lift (getitem configuration "merchant_email");;
   secret_key <- lift (getitem configuration "secret_key");;
   let api_parameters : Dict := list_to_map [
     ("merchant_email", merchant_email);
     ("secret_key", secret_key);
     ("payment_reference", PyStr payment_reference)
   ] in
   requests_post h verify_payment_url api_parameters)%M.

(** Builtin [int(v)]. *)
Definition py_int (h : Host) (v : PyVal) : Outcome Z :=
  match v with
  | PyInt n => Ok n
  | PyStr s => match int_of_str h s with Some n => Ok n | None => Raise ValueError end
  | PyNone => Raise TypeError
  end.

(** [Basket.objects.get(id=n)]. *)
Definition Basket_objects_get (n : Z) : M Basket :=
  (emit (EvBasketGet n);;
   fun s => (s, match baskets (db s) !! n with
                | Some b => Ok b
                | None => Raise ObjectDoesNotExist
                end))%M.

Definition caught_by_get_basket (e : PyExc) : bool :=
  match e with
  | ValueError | ObjectDoesNotExist => true
  | _ => false
  end.

(** [PayTabsResponseView._get_basket(basket_id)]. The assignment of
    [basket.strategy] changes no attribute that is kept here. *)
Definition _get_basket (h : Host) (basket_id : PyVal) : M (option Basket) :=
  if negb (py_truthy basket_id) then M_ret None
  else
    try_except
      (basket_id <- lift (py_int h basket_id);;
       basket <- Basket_objects_get basket_id;;
       emit (EvApplyOffers (Basket_id basket));;
       basket <- lift (applicator_apply h basket);;
       M_ret (Some basket))%M
      caught_by_get_basket
      (fun _ => M_ret None).

(** The host's [BasePaymentProcessor.record_processor_response]: one
    more row in the audit table, which is returned. *)
Definition new_row (d : Db) (response : gmap string string) (transaction_id : PyVal)
    (basket : option Basket) : PaymentProcessorResponse :=
  {| ppr_id := Z.of_nat (length (processor_responses d)) + 1;
     ppr_processor_name := NAME;
     ppr_transaction_id := transaction_id;
     ppr_response := response;
     ppr_basket := Basket_id <$> basket |}.

Definition insert_row (d : Db) (row : PaymentProcessorResponse) : Db :=
  {| baskets := baskets d;
     processor_responses := processor_responses d ++ [row];
     payment_sources := payment_sources d;
     orders := orders d |}.

Definition record_processor_response (response : gmap string string)
    (transaction_id : PyVal) (basket : option Basket) : M PaymentProcessorResponse :=
  fun s =>
    let row := new_row (db s) response transaction_id basket in
    ({| trace := trace s ++ [EvRecordResponse row]; db := insert_row (db s) row |},
     Ok row).

(** *** Statements with locals

    [post] leaves its [try] block by [return] and its [finally] block
    reads the locals as they are at that moment, so the body of [post]
    runs over a frame of locals and ends in a completion. *)
Record Frame := {
  f_transaction_id : PyVal;
  f_basket : option Basket;
  f_verification_data : Dict;
  f_payment_processor_response : option PaymentProcessorResponse
}.

Inductive Completion (A : Type) :=
| Normal (a : A)
| Returned (r : HttpResponse)
| Raised (e : PyExc).
Arguments Normal {A} a.
Arguments Returned {A} r.
Arguments Raised {A} e.

Definition Stmt (A : Type) : Type := Frame * Sys -> (Frame * Sys) * Completion A.

Definition sret {A} (a : A) : Stmt A := fun fs => (fs, Normal a).

Definition sbind {A B} (c : Stmt A) (k : A -> Stmt B) : Stmt B :=
  fun fs =>
    match c fs with
    | (fs', Normal a) => k a fs'
    | (fs', Returned r) => (fs', Returned r)
    | (fs', Raised e) => (fs', Raised e)
    end.

(** [return r]. *)
Definition return_ {A} (r : HttpResponse) : Stmt A := fun fs => (fs, Returned r).

Definition call {A} (c : M A) : Stmt A :=
  fun fs =>
    match c (snd fs) with
    | (s', Ok a) => ((fst fs, s'), Normal a)
    | (s', Raise e) => ((fst fs, s'), Raised e)
    end.

Definition locals : Stmt Frame := fun fs => (fs, Normal (fst fs)).

Definition assign (upd : Frame -> Frame) : Stmt unit :=
  fun fs => ((upd (fst fs), snd fs), Normal tt).

Definition set_transaction_id (v : PyVal) (f : Frame) : Frame :=
  {| f_transaction_id := v;
     f_basket := f_basket f;
     f_verification_data := f_verification_data f;
     f_payment_processor_response := f_payment_processor_response f |}.

Definition set_basket (b : option Basket) (f : Frame) : Frame :=
  {| f_transaction_id := f_transaction_id f;
     f_basket := b;
     f_verification_data := f_verification_data f;
     f_payment_processor_response := f_payment_processor_response f |}.

Definition set_verification_data (d : Dict) (f : Frame) : Frame :=
  {| f_transaction_id := f_transaction_id f;
     f_basket := f_basket f;
     f_verification_data := d;
     f_payment_processor_response := f_payment_processor_response f |}.

Definition set_payment_processor_response (r : PaymentProcessorResponse) (f : Frame)
  : Frame :=
  {| f_transaction_id := f_transaction_id f;
     f_basket := f_basket f;
     f_verification_data := f_verification_data f;
     f_payment_processor_response := Some r |}.

(** [try: body finally: final]: [final] always runs; when it completes
    normally the completion of [body] stands. *)
Definition try_finally {A} (body : Stmt A) (final : Stmt unit) : Stmt A :=
  fun fs =>
    let '(fs1, c) := body fs in
    match final fs1 with
    | (fs2, Normal _) => (fs2, c)
    | (fs2, Returned r) => (fs2, Returned r)
    | (fs2, Raised e) => (fs2, Raised e)
    end.

Declare Scope stmt_scope.
Delimit Scope stmt_scope with stmt.
Notation "x <- c ;; k" := (sbind c (fun x => k))
  (at level 100, c at next level, right associativity) : stmt_scope.
Notation "c ;; k" := (sbind c (fun _ => k))
  (at level 100, right associativity) : stmt_scope.

Definition payment_error (h : Host) : HttpResponse :=
  Redirect (reverse h "payment_error").

(** The [try] block of [post]. *)
Definition post_try (h : Host) (request : Request) : Stmt unit :=
  (match POST request !! "payment_reference" with
   | None =>
       call (logger (LogInvalidNotification (POST request)));;
       return_ (payment_error h)
   | Some payment_reference =>
       call (logger (LogReceivedNotification payment_reference));;
       verification_data <- call (_verify_response h payment_reference);;
       assign (set_verification_data verification_data);;
       response_code <- call (lift (getitem verification_data "response_code"));;
       if negb (py_in response_code PAYTABS_SUCCESS_CODES) then
         response_code <- call (lift (getitem verification_data "response_code"));;
         call (logger (LogVerificationError response_code (POST request)));;
         return_ (payment_error h)
       else
         reference_number <- call (lift (getitem verification_data "reference_no"));;
         basket_id <- call (lift (order_number_basket_id h reference_number));;
         basket <- call (_get_basket h basket_id);;
         assign (set_basket basket);;
         transaction_id <- call (lift (getitem verification_data "transaction_id"));;
         assign (set_transaction_id transaction_id);;
         match basket with
         | None =>
             call (logger (LogNonExistentBasket basket_id));;
             return_ (payment_error h)
         | Some _ => sret tt
         end
   end)%stmt.

(** The [finally] block of [post]. *)
Definition post_finally (h : Host) (request : Request) : Stmt unit :=
  (f <- locals;;
   _ <- call (payment_processor h);;
   payment_processor_response <-
     call (record_processor_response (POST request) (f_transaction_id f) (f_basket f));;
   assign (set_payment_processor_response payment_processor_response))%stmt.

(** The rest of [post], reached with a basket and the audit row. *)
Definition post_place_order (h : Host) (verification_data : Dict) (basket : Basket)
    (payment_processor_response : PaymentProcessorResponse) : M HttpResponse :=
  (failed <-
     try_except
       (atomic
          (try_except
             (emit (EvHandlePayment (Basket_id basket));;
              on_db (handle_payment h verification_data basket))
             (fun _ => true)
             (fun exc =>
                logger (LogPaymentDidNotComplete (Basket_id basket) (exc_class_name exc)
                          (ppr_id payment_processor_response));;
                M_raise exc));;
        M_ret None)
       (fun _ => true)
       (fun exc =>
          logger (LogHandlePaymentFailed (Basket_id basket) (exc_class_name exc));;
          M_ret (Some (payment_error h)));;
   match failed with
   | Some response => M_ret response
   | None =>
       emit (EvCreateOrder (Basket_id basket));;
       on_db (create_order h basket);;
       let receipt_url := get_receipt_page_url h (order_number basket) in
       M_ret (Redirect receipt_url)
   end)%M.

(** The body of [post]: locals, the guarded block, then order placement.
    The block falls through only with a basket, and its [finally]
    block has then bound the audit row. *)
Definition post_body (h : Host) (request : Request) : Stmt HttpResponse :=
  (try_finally (post_try h request) (post_finally h request);;
   f <- locals;;
   match f_basket f, f_payment_processor_response f with
   | Some basket, Some payment_processor_response =>
       response <- call (post_place_order h (f_verification_data f) basket
                           payment_processor_response);;
       return_ response
   | _, _ => fun fs => (fs, Raised AttributeError)
   end)%stmt.

Definition initial_frame : Frame :=
  {| f_transaction_id := PyStr "Unknown";
     f_basket := None;
     f_verification_data := ∅;
     f_payment_processor_response := None |}.

(** [PayTabsResponseView.post(request)]. *)
Definition post (h : Host) (request : Request) : M HttpResponse :=
  fun s =>
    match post_body h request (initial_frame, s) with
    | ((_, s'), Normal r) => (s', Ok r)
    | ((_, s'), Returned r) => (s', Ok r)
    | ((_, s'), Raised e) => (s', Raise e)
    end.

(** ** Observations on a run *)

Definition start (d : Db) : Sys := {| trace := []; db := d |}.

Definition is_verify_call (e : Event) : bool :=
  match e with
  | EvHttp url _ => bool_decide (url = verify_payment_url)
  | _ => false
  end.

Definition is_gateway_call (e : Event) : bool :=
  match e with EvHttp _ _ => true | _ => false end.

Definition is_basket_lookup (e : Event) : bool :=
  match e with EvBasketGet _ => true | _ => false end.

Definition is_create_order (e : Event) : bool :=
  match e with EvCreateOrder _ => true | _ => false end.

Definition is_rollback (e : Event) : bool :=
  match e with EvRollback => true | _ => false end.

Definition count (p : Event -> bool) (s : Sys) : nat :=
  length (List.filter p (trace s)).

Definition verify_calls : Sys -> nat := count is_verify_call.
Definition gateway_calls : Sys -> nat := count is_gateway_call.
Definition basket_lookups : Sys -> nat := count is_basket_lookup.
Definition orders_created : Sys -> nat := count is_create_order.
Definition rollbacks : Sys -> nat := count is_rollback.

Definition recorded (e : Event) : option PaymentProcessorResponse :=
  match e with EvRecordResponse r => Some r | _ => None end.

(** The audit rows written during a run, in order. *)
Definition audit_records (s : Sys) : list PaymentProcessorResponse :=
  omap recorded (trace s).

(** Events that neither write the audit table, nor create an order, nor
    end a transaction: what the [try] block of [post] can emit. *)
Definition quiet (e : Event) : bool :=
  match e with
  | EvHttp _ _ | EvBasketGet _ | EvApplyOffers _ | EvLog _ => true
  | _ => false
  end.

(** ** A concrete site

    A small host on which the definitions run: one basket with order
    number [EDX-100001], a gateway that answers every call with a given
    dictionary, and the checkout mixin's order placement. *)

(** The checkout mixin's [handle_payment]: it asks the processor to
    handle the response and records the payment. *)
Definition mixin_handle_payment (response : Dict) (basket : Basket) (d : Db)
  : Db * Outcome unit :=
  match handle_processor_response response with
  | Ok handled =>
      ({| baskets := baskets d;
          processor_responses := processor_responses d;
          payment_sources := payment_sources d ++ [(Basket_id basket, handled)];
          orders := orders d |}, Ok tt)
  | Raise e => (d, Raise e)
  end.

(** An order placement that writes its payment row and then fails. *)
Definition failing_handle_payment (response : Dict) (basket : Basket) (d : Db)
  : Db * Outcome unit :=
  (fst (mixin_handle_payment response basket d), Raise (OtherError "PaymentError")).

Definition mixin_create_order (basket : Basket) (d : Db) : Db * Outcome unit :=
  ({| baskets := baskets d;
      processor_responses := processor_responses d;
      payment_sources := payment_sources d;
      orders := orders d ++ [order_number basket] |}, Ok tt).

Definition demo_configuration : Dict :=
  list_to_map [
    ("merchant_email", PyStr "merchant@example.com");
    ("secret_key", PyStr "s3cr3t");
    ("return_base_url", PyStr "https://shop.example.com");
    ("default_phone_number_country_code", PyStr "00966")
  ].

Definition demo_reverse (name : string) : string :=
  if bool_decide (name = "payment_error") then "/checkout/error/"
  else if bool_decide (name = "paytabs:paytabs-submit") then "/payment/paytabs/submit"
  else "/".

Definition demo_alpha_3 (c : PyVal) : Outcome string :=
  if py_eq c (PyStr "SA") then Ok "SAU"
  else if py_eq c (PyStr "US") then Ok "USA"
  else Raise AttributeError.

Definition demo_decimal_div (x : Decimal) (q : Z) : Outcome Decimal :=
  if bool_decide (q = 0) then Raise (OtherError "DivisionByZero")
  else Ok {| coefficient := coefficient x / q; exponent := exponent x |}.

Definition demo_decimal_str (x : Decimal) : string :=
  pretty (coefficient x) +:+ "E" +:+ pretty (exponent x).

Definition demo_int_of_str (s : string) : option Z :=
  if bool_decide (s = "1") then Some 1
  else if bool_decide (s = "2") then Some 2
  else None.

Definition demo_basket_id (order_number : PyVal) : Outcome PyVal :=
  if py_eq order_number (PyStr "EDX-100001") then Ok (PyInt 1)
  else if py_eq order_number (PyStr "EDX-100002") then Ok (PyInt 2)
  else if py_eq order_number (PyStr "EDX-abc") then Ok (PyStr "abc")
  else Raise ValueError.

Definition demo_host (gateway : Dict)
    (handle : Dict -> Basket -> Db -> Db * Outcome unit) : Host :=
  {| reverse := demo_reverse;
     LANGUAGE_CODE := "en";
     site_configuration := demo_configuration;
     requests_post_json := fun _ _ => Ok gateway;
     pycountry_alpha_3 := demo_alpha_3;
     decimal_div := demo_decimal_div;
     decimal_str := demo_decimal_str;
     int_of_str := demo_int_of_str;
     order_number_basket_id := demo_basket_id;
     applicator_apply := fun b => Ok b;
     handle_payment := handle;
     create_order := mixin_create_order;
     get_receipt_page_url := fun n => "/checkout/receipt/?order_number=" +:+ n |}.

Definition demo_profile (c : PyVal) : AccountDetails :=
  {| country := c;
     extended_profile := Some [
       list_to_map [("field_name", PyStr "first_name"); ("field_value", PyStr "Ada")];
       list_to_map [("field_name", PyStr "last_name"); ("field_value", PyStr "Lovelace")];
       list_to_map [("field_name", PyStr "city"); ("field_value", PyStr "Riyadh")]
     ] |}.

Definition demo_user (c : PyVal) : User :=
  {| email := PyStr "ada@example.com"; account_details := demo_profile c |}.

Definition demo_line : Line :=
  {| product_course := Some "course-v1:edX+DemoX+Demo";
     product_title := "Seat in Demo Course";
     quantity := 1;
     line_price_incl_tax_incl_discounts := {| coefficient := 4900; exponent := -2 |} |}.

Definition demo_basket (c : PyVal) : Basket :=
  {| Basket_id := 1;
     order_number := "EDX-100001";
     owner := demo_user c;
     all_lines := [demo_line];
     total_incl_tax := {| coefficient := 4900; exponent := -2 |};
     currency := PyStr "USD" |}.

Definition demo_db : Db :=
  {| baskets := {[ 1 := demo_basket (PyStr "SA") ]};
     processor_responses := [];
     payment_sources := [];
     orders := [] |}.

Definition demo_request (post : gmap string string) : Request :=
  {| scheme := "https";
     get_host := "shop.example.com";
     client_ip := PyStr "203.0.113.7";
     is_routable := true;
     language_cookie := None;
     POST := post |}.

Definition demo_notification : Request :=
  demo_request {[ "payment_reference" := "123456" ]}.

(** The verify response of the specification's end-to-end example, with
    a given response code and reference number. *)
Definition demo_verified (code reference_no : string) : Dict :=
  list_to_map [
    ("response_code", PyStr code);
    ("reference_no", PyStr reference_no);
    ("transaction_id", PyStr "T1");
    ("amount", PyStr "49.00");
    ("currency", PyStr "USD")
  ].

Definition demo_processor : PayTabs :=
  {| merchant_email := PyStr "merchant@example.com";
     secret_key := PyStr "s3cr3t";
     return_base_url := PyStr "https://shop.example.com";
     configuration := demo_configuration |}.

Definition demo_card_response : Dict :=
  <[ "card_first_six_digits" := PyStr "411111" ]>
    (<[ "card_last_four_digits" := PyStr "1111" ]>
       (demo_verified "100" "EDX-100001")).

Definition demo_pay_page : Dict :=
  list_to_map [
    ("response_code", PyStr "4012");
    ("payment_url", PyStr "https://www.paytabs.com/pay/1");
    ("result", PyStr "Pay Page is created")
  ].

Definition demo_pay_page_rejected : Dict :=
  list_to_map [
    ("response_code", PyStr "4002");
    ("result", PyStr "Invalid secret key")
  ].

(** ** Statements about a notification *)

(** The gateway answers a call to [url] with [response]. *)
Definition gateway_answers (h : Host) (url : string) (response : Dict) : Prop :=
  forall data, requests_post_json h url data = Ok response.

(** The reference number of [verification_data] leads to [basket]: the
    host turns it into a basket id, [_get_basket] finds the basket in
    [d] and the offers apply. *)
Definition resolves_basket (h : Host) (d : Db) (verification_data : Dict)
    (basket : Basket) : Prop :=
  exists reference_number basket_id n found,
    verification_data !! "reference_no" = Some reference_number /\
    order_number_basket_id h reference_number = Ok basket_id /\
    py_truthy basket_id = true /\
    py_int h basket_id = Ok n /\
    baskets d !! n = Some found /\
    applicator_apply h found = Ok basket.

(** The three conditions under which [post] creates an order: the
    verified response code is accepted, the reference number leads to a
    basket, and [handle_payment] does not raise. *)
Definition order_conditions (h : Host) (request : Request) (d : Db) : Prop :=
  exists payment_reference data verification_data code basket d1 d2,
    POST request !! "payment_reference" = Some payment_reference /\
    data !! "payment_reference" = Some (PyStr payment_reference) /\
    requests_post_json h verify_payment_url data = Ok verification_data /\
    verification_data !! "response_code" = Some code /\
    py_in code PAYTABS_SUCCESS_CODES = true /\
    resolves_basket h d verification_data basket /\
    handle_payment h verification_data basket d1 = (d2, Ok tt).


(** The host's order placement hands the response to the processor: when
    [handle_processor_response] raises, so does [handle_payment]. *)
Definition handle_payment_calls_processor (h : Host) : Prop :=
  forall response basket d e,
    handle_processor_response response = Raise e ->
    snd (handle_payment h response basket d) = Raise e.

(** ** Statements about the processor *)

(** The field is the one called [field_name]. *)
Definition named (field_name : string) (field : Dict) : bool :=
  bool_decide (field !! "field_name" = Some (PyStr field_name)).

(** The value the first field called [field_name] gives, read with the
    default; the default itself when no field has that name. *)
Definition extended_value (fields : list Dict) (field_name : string)
    (default_val : PyVal) : PyVal :=
  match List.find (named field_name) fields with
  | Some field => dict_get field "field_value" default_val
  | None => default_val
  end.

Definition no_products : Products :=
  {| names := []; quantities := []; prices := [] |}.

(** The dictionary [pay_data] of [get_transaction_parameters], as a
    function of what the body has computed when it builds it. *)
Definition pay_data (h : Host) (self : PayTabs) (basket : Basket) (request : Request)
    (user_profile_data : UserProfileData) (products : Products)
    (cc_phone_number : PyVal) : Dict :=
  list_to_map [
    ("merchant_email", merchant_email self);
    ("secret_key", secret_key self);
    ("site_url", PyStr (scheme request +:+ "://" +:+ get_host request));
    ("return_url",
     PyStr (py_str (return_base_url self) +:+ reverse h "paytabs:paytabs-submit"));
    ("title", PyStr ("Order: " +:+ order_number basket));
    ("cc_first_name", first_name user_profile_data);
    ("cc_last_name", last_name user_profile_data);
    ("cc_phone_number", cc_phone_number);
    ("phone_number", PyStr "Phone Number");
    ("email", email (owner basket));
    ("products_per_title", PyStr (String.concat " || " (names products)));
    ("unit_price", PyStr (String.concat " || " (prices products)));
    ("quantity", PyStr (String.concat " || " (quantities products)));
    ("other_charges", PyStr "0.0");
    ("amount", PyStr (decimal_str h (total_incl_tax basket)));
    ("discount", PyStr "0.0");
    ("currency", currency basket);
    ("reference_no", PyStr (order_number basket));
    ("ip_customer", if is_routable request then client_ip request else PyStr "-");
    ("ip_merchant", PyStr "-");
    ("billing_address", mailing_address user_profile_data);
    ("city", city user_profile_data);
    ("state", state user_profile_data);
    ("postal_code", postal_code user_profile_data);
    ("country", PyStr (country_code user_profile_data));
    ("shipping_first_name", first_name user_profile_data);
    ("shipping_last_name", last_name user_profile_data);
    ("address_shipping", mailing_address user_profile_data);
    ("state_shipping", state user_profile_data);
    ("city_shipping", city user_profile_data);
    ("postal_code_shipping", postal_code user_profile_data);
    ("country_shipping", PyStr (country_code user_profile_data));
    ("msg_lang",
     PyStr match language_cookie request with
           | Some c => if bool_decide (c = "") then LANGUAGE_CODE h else c
           | None => LANGUAGE_CODE h
           end);
    ("cms_with_version", PyStr "Open edX E-Commerce")
  ].

(** The dictionary [api_parameters] of [_verify_response]. *)
Definition api_parameters (merchant_email secret_key : PyVal)
    (payment_reference : string) : Dict :=
  list_to_map [
    ("merchant_email", merchant_email);
    ("secret_key", secret_key);
    ("payment_reference", PyStr payment_reference)
  ].

Definition is_commit (e : Event) : bool :=
  match e with EvCommit => true | _ => false end.

Definition is_atomic_enter (e : Event) : bool :=
  match e with EvAtomicEnter => true | _ => false end.

Definition commits : Sys -> nat := count is_commit.
Definition transactions : Sys -> nat := count is_atomic_enter.

(** ** Further statements and sites *)

Definition demo_duplicate_fields : list Dict :=
  [ list_to_map [("field_name", PyStr "state"); ("field_value", PyStr "Riyadh")];
    list_to_map [("field_name", PyStr "city"); ("field_value", PyStr "Jeddah")];
    list_to_map [("field_name", PyStr "city"); ("field_value", PyStr "Mecca")];
    list_to_map [("field_name", PyStr "last_name")] ].

(** What one line adds to the three lists. *)
Definition priced (h : Host) (line : Line) (price : string) : Prop :=
  exists unit_price,
    decimal_div h (line_price_incl_tax_incl_discounts line) (quantity line) = Ok unit_price /\
    price = decimal_str h unit_price.

Definition demo_second_line : Line :=
  {| product_course := None;
     product_title := "Donation";
     quantity := 2;
     line_price_incl_tax_incl_discounts := {| coefficient := 1000; exponent := -2 |} |}.

Definition demo_zero_line : Line :=
  {| product_course := None;
     product_title := "Free seat";
     quantity := 0;
     line_price_incl_tax_incl_discounts := {| coefficient := 0; exponent := 0 |} |}.

Definition demo_private_request : Request :=
  {| scheme := "https";
     get_host := "shop.example.com";
     client_ip := PyStr "10.0.0.7";
     is_routable := false;
     language_cookie := Some "ar";
     POST := ∅ |}.

Definition demo_processor_without_phone : PayTabs :=
  {| merchant_email := PyStr "merchant@example.com";
     secret_key := PyStr "s3cr3t";
     return_base_url := PyStr "https://shop.example.com";
     configuration := delete "default_phone_number_country_code" demo_configuration |}.

(** What [_get_basket] adds to the trace: nothing, the lookup, or the
    lookup and the offers. *)
Definition lookup_events (evs : list Event) : Prop :=
  evs = [] \/
  (exists n, evs = [EvBasketGet n]) \/
  (exists n id, evs = [EvBasketGet n; EvApplyOffers id]).

(** What the [try] block of [post] emits: quiet events, among them at
    most one call to the gateway, which is a verify call, and at most
    one basket lookup. *)
Definition try_events (pre : list Event) : Prop :=
  Forall (fun e => quiet e = true) pre /\
  (length (List.filter is_gateway_call pre) <= 1)%nat /\
  List.filter is_gateway_call pre = List.filter is_verify_call pre /\
  (length (List.filter is_basket_lookup pre) <= 1)%nat.

(** The events after the [try] block, by the way the run ends: the
    audit row alone; the audit row and a transaction that is rolled
    back; or the audit row, a committed transaction and the order. *)
Definition closing_events (row : PaymentProcessorResponse) (rest : list Event) : Prop :=
  rest = [EvRecordResponse row] \/
  (exists id l1 l2,
      rest = [EvRecordResponse row; EvAtomicEnter; EvHandlePayment id; EvLog l1;
              EvRollback; EvLog l2]) \/
  (exists id,
      rest = [EvRecordResponse row; EvAtomicEnter; EvHandlePayment id; EvCommit;
              EvCreateOrder id]).

Definition demo_unconfigured_host : Host :=
  {| reverse := demo_reverse;
     LANGUAGE_CODE := "en";
     site_configuration := delete "secret_key" demo_configuration;
     requests_post_json := fun _ _ => Ok (demo_verified "100" "EDX-100001");
     pycountry_alpha_3 := demo_alpha_3;
     decimal_div := demo_decimal_div;
     decimal_str := demo_decimal_str;
     int_of_str := demo_int_of_str;
     order_number_basket_id := demo_basket_id;
     applicator_apply := fun b => Ok b;
     handle_payment := mixin_handle_payment;
     create_order := mixin_create_order;
     get_receipt_page_url := fun n => "/checkout/receipt/?order_number=" +:+ n |}.

Definition failing_create_order (basket : Basket) (d : Db) : Db * Outcome unit :=
  (d, Raise (OtherError "UnableToPlaceOrder")).

Definition demo_host_failing_create_order : Host :=
  {| reverse := demo_reverse;
     LANGUAGE_CODE := "en";
     site_configuration := demo_configuration;
     requests_post_json := fun _ _ => Ok (demo_verified "100" "EDX-100001");
     pycountry_alpha_3 := demo_alpha_3;
     decimal_div := demo_decimal_div;
     decimal_str := demo_decimal_str;
     int_of_str := demo_int_of_str;
     order_number_basket_id := demo_basket_id;
     applicator_apply := fun b => Ok b;
     handle_payment := mixin_handle_payment;
     create_order := failing_create_order;
     get_receipt_page_url := fun n => "/checkout/receipt/?order_number=" +:+ n |}.

Definition demo_unreachable_host : Host :=
  {| reverse := demo_reverse;
     LANGUAGE_CODE := "en";
     site_configuration := demo_configuration;
     requests_post_json := fun _ _ => Raise (OtherError "ConnectionError");
     pycountry_alpha_3 := demo_alpha_3;
     decimal_div := demo_decimal_div;
     decimal_str := demo_decimal_str;
     int_of_str := demo_int_of_str;
     order_number_basket_id := demo_basket_id;
     applicator_apply := fun b => Ok b;
     handle_payment := mixin_handle_payment;
     create_order := mixin_create_order;
     get_receipt_page_url := fun n => "/checkout/receipt/?order_number=" +:+ n |}.

Definition demo_verified_without_transaction : Dict :=
  delete "transaction_id" (demo_verified "100" "EDX-100001").

(** * Properties *)

(** ** Dictionaries and outcomes *)

Lemma getitem_Some (d : Dict) k v : d !! k = Some v -> getitem d k = Ok v.
Proof. intros H. unfold getitem. now rewrite H. Qed.

Lemma getitem_None (d : Dict) k : d !! k = None -> getitem d k = Raise (KeyError k).
Proof. intros H. unfold getitem. now rewrite H. Qed.

Lemma dict_get_Some (d : Dict) k v dflt : d !! k = Some v -> dict_get d k dflt = v.
Proof. intros H. unfold dict_get. now rewrite H. Qed.

Lemma dict_get_None (d : Dict) k dflt : d !! k = None -> dict_get d k dflt = dflt.
Proof. intros H. unfold dict_get. now rewrite H. Qed.

Lemma py_eq_true a b : py_eq a b = true <-> a = b.
Proof. unfold py_eq. apply bool_decide_eq_true. Qed.

Lemma py_eq_false a b : py_eq a b = false <-> a <> b.
Proof. unfold py_eq. apply bool_decide_eq_false. Qed.

Lemma py_eq_refl a : py_eq a a = true.
Proof. now apply py_eq_true. Qed.

(** The accepted set of the view is exactly the two codes. *)
Lemma py_in_success_codes v :
  py_in v PAYTABS_SUCCESS_CODES = true <-> v = PyStr "100" \/ v = PyStr "111".
Proof.
  unfold py_in, PAYTABS_SUCCESS_CODES. simpl.
  rewrite !orb_true_iff, !py_eq_true. intuition discriminate.
Qed.

Lemma contains_intro pre sub suf : contains (pre +:+ sub +:+ suf) sub.
Proof. now exists pre, suf. Qed.

Lemma append_assoc (a b c : string) : (a +:+ b) +:+ c = a +:+ b +:+ c.
Proof.
  induction a as [|x a IH].
  - reflexivity.
  - change (String x ((a +:+ b) +:+ c) = String x (a +:+ b +:+ c)). now rewrite IH.
Qed.

(** ** [handle_processor_response] *)

(** Without a response code the lookup itself fails. *)
Lemma handle_processor_response_no_code response :
  response !! "response_code" = None ->
  handle_processor_response response = Raise (KeyError "response_code").
Proof.
  intros H. unfold handle_processor_response. now rewrite (getitem_None _ _ H).
Qed.

Lemma handle_processor_response_rejects response code :
  response !! "response_code" = Some code ->
  code <> PyStr "100" ->
  handle_processor_response response = Raise (PayTabsException processor_error_message).
Proof.
  intros H Hne. unfold handle_processor_response.
  rewrite (getitem_Some _ _ _ H). unfold obind.
  apply py_eq_false in Hne. now rewrite Hne.
Qed.

Lemma handle_processor_response_accepts response :
  response !! "response_code" = Some (PyStr "100") ->
  handle_processor_response response =
    Ok {| hpr_transaction_id := dict_get response "transaction_id" PyNone;
          hpr_total := dict_get response "amount" PyNone;
          hpr_currency := dict_get response "currency" PyNone;
          hpr_card_number :=
            py_str (dict_get response "card_first_six_digits" (PyStr "XXXXXX"))
            +:+ "XXXXXX"
            +:+ py_str (dict_get response "card_last_four_digits" (PyStr "XXXX"));
          hpr_card_type := dict_get response "card_brand" PyNone |}.
Proof.
  intros H. unfold handle_processor_response.
  rewrite (getitem_Some _ _ _ H). unfold obind. now rewrite py_eq_refl.
Qed.

(** C3, as stated, fails: with no digit fields the defaults ['XXXXXX']
    and ['XXXX'] are put around the fixed ['XXXXXX'], so the card number
    has sixteen characters, not twelve. *)
Lemma C3_default_mask_is_not_12_characters :
  exists r,
    handle_processor_response {[ "response_code" := PyStr "100" ]} = Ok r /\
    hpr_card_number r = "XXXXXXXXXXXXXXXX" /\
    String.length (hpr_card_number r) <> 12%nat.
Proof.
  eexists. split; [vm_compute; reflexivity |]. split; [reflexivity |].
  simpl. discriminate.
Qed.

(** C3 (amended): for every response with response code ['100'],
    [handle_processor_response] returns a result whose card number is the
    first six digits, ['XXXXXX'], and the last four digits when both
    fields are present, and is the sixteen-character string of ['X']
    (the defaults ['XXXXXX'] and ['XXXX'] around ['XXXXXX']) when both
    are absent. *)
Theorem C3_card_number_mask response :
  response !! "response_code" = Some (PyStr "100") ->
  exists r,
    handle_processor_response response = Ok r /\
    (forall first_six last_four,
        response !! "card_first_six_digits" = Some first_six ->
        response !! "card_last_four_digits" = Some last_four ->
        hpr_card_number r = py_str first_six +:+ "XXXXXX" +:+ py_str last_four) /\
    (response !! "card_first_six_digits" = None ->
     response !! "card_last_four_digits" = None ->
     hpr_card_number r = "XXXXXXXXXXXXXXXX" /\
     String.length (hpr_card_number r) = 16%nat).
Proof.
  intros H. eexists. split; [apply (handle_processor_response_accepts _ H) |].
  simpl. split.
  - intros a b Ha Hb.
    now rewrite (dict_get_Some _ _ _ _ Ha), (dict_get_Some _ _ _ _ Hb).
  - intros Ha Hb.
    rewrite (dict_get_None _ _ _ Ha), (dict_get_None _ _ _ Hb). now split.
Qed.

(** A response with both digit fields: the card number is masked. *)
Lemma C3_card_number_mask_witness :
  demo_card_response !! "response_code" = Some (PyStr "100") /\
  exists r,
    handle_processor_response demo_card_response = Ok r /\
    hpr_card_number r = "411111XXXXXX1111".
Proof.
  split; [reflexivity |].
  destruct (C3_card_number_mask demo_card_response eq_refl) as (r & Hr & Hboth & _).
  exists r. split; [exact Hr |].
  exact (Hboth (PyStr "411111") (PyStr "1111") eq_refl eq_refl).
Defined.

(** C4: [handle_processor_response] raises [PayTabsException] for every
    response whose response code is not ['100'], and validates nothing
    else: with the code ['100'] it returns a result whatever the other
    fields are. *)
Theorem C4_raises_unless_code_100 response code :
  response !! "response_code" = Some code ->
  (code <> PyStr "100" ->
   handle_processor_response response = Raise (PayTabsException processor_error_message)) /\
  (code = PyStr "100" -> exists r, handle_processor_response response = Ok r).
Proof.
  intros H. split.
  - apply handle_processor_response_rejects, H.
  - intros ->. eexists. apply handle_processor_response_accepts, H.
Qed.

(** The code ['111'] is rejected, the code ['100'] alone is enough. *)
Lemma C4_raises_unless_code_100_witness :
  handle_processor_response (demo_verified "111" "EDX-100001")
    = Raise (PayTabsException processor_error_message) /\
  exists r, handle_processor_response {[ "response_code" := PyStr "100" ]} = Ok r.
Proof.
  split.
  - apply (C4_raises_unless_code_100 (demo_verified "111" "EDX-100001") (PyStr "111"));
      [reflexivity | discriminate].
  - apply (C4_raises_unless_code_100 {[ "response_code" := PyStr "100" ]} (PyStr "100"));
      reflexivity.
Defined.

(** ** [get_transaction_parameters] *)

Lemma M_bind_lift_Ok {A B} (a : A) (k : A -> M B) s : M_bind (lift (Ok a)) k s = k a s.
Proof. reflexivity. Qed.

Lemma M_bind_lift_Raise {A B} e (k : A -> M B) s :
  M_bind (lift (Raise e)) k s = (s, Raise e).
Proof. reflexivity. Qed.

(** A profile is returned only for a country that is set and that
    [pycountry] knows. *)
Lemma profile_has_valid_country h user profile :
  _get_user_profile_data h user = Ok profile ->
  py_truthy (country (account_details user)) = true /\
  pycountry_alpha_3 h (country (account_details user)) = Ok (country_code profile).
Proof.
  unfold _get_user_profile_data. intros H.
  destruct (py_truthy (country (account_details user))); [| discriminate].
  split; [reflexivity |].
  destruct (pycountry_alpha_3 h (country (account_details user))) as [c|]; [| discriminate].
  unfold obind in H. repeat case_match; try discriminate.
  now inversion H.
Qed.

Lemma no_country_no_profile h user :
  py_truthy (country (account_details user)) = false ->
  _get_user_profile_data h user = Raise (PayTabsException country_not_set_message).
Proof. intros H. unfold _get_user_profile_data. now rewrite H. Qed.

(** C5: for every buyer profile with no country set,
    [get_transaction_parameters] raises [PayTabsException] and the
    state is the one it started in: nothing was sent to the gateway. *)
Theorem C5_no_country_fails_before_gateway h self basket request s :
  py_truthy (country (account_details (owner basket))) = false ->
  let r := get_transaction_parameters h self basket request s in
  snd r = Raise (PayTabsException country_not_set_message) /\
  fst r = s /\
  gateway_calls (fst r) = gateway_calls s.
Proof.
  intros H r. subst r. unfold get_transaction_parameters.
  rewrite (no_country_no_profile _ _ H), M_bind_lift_Raise. now repeat split.
Qed.

(** A buyer without a country on the concrete site. *)
Lemma C5_no_country_fails_before_gateway_witness :
  let r := get_transaction_parameters
             (demo_host (demo_verified "4012" "EDX-100001") mixin_handle_payment)
             demo_processor (demo_basket PyNone) (demo_request ∅) (start demo_db) in
  snd r = Raise (PayTabsException country_not_set_message) /\
  gateway_calls (fst r) = 0%nat.
Proof.
  destruct (C5_no_country_fails_before_gateway
              (demo_host (demo_verified "4012" "EDX-100001") mixin_handle_payment)
              demo_processor (demo_basket PyNone) (demo_request ∅) (start demo_db)
              eq_refl) as (Hraise & _ & Hcalls).
  split; [exact Hraise | exact Hcalls].
Defined.

(** What [get_transaction_parameters] does once the profile, the lines
    and the configuration are read: one call to the gateway, and the
    answer decides. *)
Lemma get_transaction_parameters_calls_gateway
    h self basket request s profile products phone response :
  _get_user_profile_data h (owner basket) = Ok profile ->
  collect_products h (all_lines basket)
    {| names := []; quantities := []; prices := [] |} = Ok products ->
  configuration self !! "default_phone_number_country_code" = Some phone ->
  gateway_answers h create_pay_page_url response ->
  exists data,
    get_transaction_parameters h self basket request s =
      ({| trace := trace s ++ [EvHttp create_pay_page_url data]; db := db s |},
       if negb (py_eq (dict_get response "response_code" PyNone) (PyStr "4012")) then
         (response_code <- getitem response "response_code";
          result <- getitem response "result";
          Raise (PayTabsException (create_pay_page_error response_code result)))%out
       else Ok (dict_get response "payment_url" PyNone)).
Proof.
  intros Hprofile Hproducts Hphone Hgateway.
  unfold get_transaction_parameters.
  rewrite Hprofile, M_bind_lift_Ok, Hproducts, M_bind_lift_Ok.
  rewrite (getitem_Some _ _ _ Hphone), M_bind_lift_Ok.
  unfold requests_post. rewrite Hgateway.
  match goal with |- context [EvHttp _ ?d] => exists d; generalize d; intros data end.
  unfold M_bind, emit, lift, M_raise, M_ret. cbv beta iota zeta.
  destruct (negb (py_eq (dict_get response "response_code" PyNone) (PyStr "4012"))).
  - destruct (getitem response "response_code");
      [destruct (getitem response "result") |]; reflexivity.
  - reflexivity.
Qed.

(** C6: when the buyer's profile has a valid country (and the lines and
    the configuration are read), [get_transaction_parameters] returns
    the payment page URL if and only if the create-pay-page response
    carries the code ['4012']; for any other code it raises a
    [PayTabsException] whose message contains that code and the
    gateway's result message. *)
Theorem C6_payment_page_iff_code_4012
    h self basket request s profile products phone response :
  _get_user_profile_data h (owner basket) = Ok profile ->
  collect_products h (all_lines basket)
    {| names := []; quantities := []; prices := [] |} = Ok products ->
  configuration self !! "default_phone_number_country_code" = Some phone ->
  gateway_answers h create_pay_page_url response ->
  let r := get_transaction_parameters h self basket request s in
  gateway_calls (fst r) = S (gateway_calls s) /\
  (is_ok (snd r) = true <-> response !! "response_code" = Some (PyStr "4012")) /\
  (response !! "response_code" = Some (PyStr "4012") ->
   snd r = Ok (dict_get response "payment_url" PyNone)) /\
  (forall code result,
      response !! "response_code" = Some code ->
      code <> PyStr "4012" ->
      response !! "result" = Some result ->
      exists msg,
        snd r = Raise (PayTabsException msg) /\
        contains msg (py_str code) /\
        contains msg (py_str result)).
Proof.
  intros Hprofile Hproducts Hphone Hgateway r. subst r.
  destruct (get_transaction_parameters_calls_gateway
              h self basket request s _ _ _ _ Hprofile Hproducts Hphone Hgateway)
    as (data & ->).
  cbn [fst snd]. split; [| split; [| split]].
  - unfold gateway_calls, count. cbn [trace].
    rewrite List.filter_app, length_app. simpl. lia.
  - unfold dict_get, getitem.
    destruct (response !! "response_code") as [code|] eqn:Hcode; simpl.
    + destruct (py_eq code (PyStr "4012")) eqn:Heq; simpl.
      * apply py_eq_true in Heq. subst code. now split.
      * apply py_eq_false in Heq.
        split; [| intros [= ->]; contradiction].
        destruct (response !! "result"); discriminate.
    + split; discriminate.
  - intros Hcode. rewrite (dict_get_Some _ _ _ _ Hcode). now rewrite py_eq_refl.
  - intros code result Hcode Hne Hresult.
    rewrite (dict_get_Some _ _ _ _ Hcode).
    apply py_eq_false in Hne. rewrite Hne. simpl.
    rewrite (getitem_Some _ _ _ Hcode), (getitem_Some _ _ _ Hresult). simpl.
    eexists. split; [reflexivity |]. unfold create_pay_page_error. split.
    + apply contains_intro.
    + exists ("PayTabs raised an error when trying to process the payment (code: "
              +:+ py_str code +:+ ", message: "), ")".
      now rewrite !append_assoc.
Qed.

(** The concrete site with a gateway that creates the pay page, and
    with one that rejects the secret key. *)
Lemma C6_payment_page_iff_code_4012_witness :
  snd (get_transaction_parameters (demo_host demo_pay_page mixin_handle_payment)
         demo_processor (demo_basket (PyStr "SA")) (demo_request ∅) (start demo_db))
    = Ok (PyStr "https://www.paytabs.com/pay/1") /\
  exists msg,
    snd (get_transaction_parameters (demo_host demo_pay_page_rejected mixin_handle_payment)
           demo_processor (demo_basket (PyStr "SA")) (demo_request ∅) (start demo_db))
      = Raise (PayTabsException msg) /\
    contains msg "4002" /\
    contains msg "Invalid secret key".
Proof.
  split.
  - refine (proj1 (proj2 (proj2
      (C6_payment_page_iff_code_4012
         (demo_host demo_pay_page mixin_handle_payment)
         demo_processor (demo_basket (PyStr "SA")) (demo_request ∅) (start demo_db)
         _ _ (PyStr "00966") demo_pay_page _ _ eq_refl _))) eq_refl);
      [vm_compute; reflexivity | vm_compute; reflexivity | intros data; reflexivity].
  - refine (proj2 (proj2 (proj2
      (C6_payment_page_iff_code_4012
         (demo_host demo_pay_page_rejected mixin_handle_payment)
         demo_processor (demo_basket (PyStr "SA")) (demo_request ∅) (start demo_db)
         _ _ (PyStr "00966") demo_pay_page_rejected _ _ eq_refl _)))
      (PyStr "4002") (PyStr "Invalid secret key") eq_refl _ eq_refl);
      [vm_compute; reflexivity | vm_compute; reflexivity | intros data; reflexivity
      | discriminate].
Defined.

(** ** The stages of [post] *)

Lemma count_app p t evs d1 d2 :
  count p {| trace := t ++ evs; db := d1 |}
  = (count p {| trace := t; db := d2 |} + length (List.filter p evs))%nat.
Proof. unfold count. cbn [trace]. now rewrite List.filter_app, length_app. Qed.

Lemma quiet_no_order evs :
  Forall (fun e => quiet e = true) evs -> List.filter is_create_order evs = [].
Proof.
  induction 1 as [|e evs He _ IH]; [reflexivity |].
  simpl. rewrite IH. now destruct e.
Qed.

Lemma quiet_no_audit evs :
  Forall (fun e => quiet e = true) evs -> omap recorded evs = [].
Proof.
  induction 1 as [|e evs He _ IH]; [reflexivity |].
  change (omap recorded (e :: evs))
    with (match recorded e with Some r => r :: omap recorded evs | None => omap recorded evs end).
  rewrite IH. now destruct e.
Qed.

Lemma PayTabs_init_Ok h p :
  PayTabs_init h = Ok p ->
  exists merchant_email secret_key,
    getitem (site_configuration h) "merchant_email" = Ok merchant_email /\
    getitem (site_configuration h) "secret_key" = Ok secret_key.
Proof.
  unfold PayTabs_init. intros H.
  destruct (getitem (site_configuration h) "merchant_email") as [me|]; [| discriminate].
  destruct (getitem (site_configuration h) "secret_key") as [sk|]; [| discriminate].
  now exists me, sk.
Qed.

(** On a configured site [_verify_response] is one call to the gateway. *)
Lemma verify_response_run h p payment_reference verification_data s :
  PayTabs_init h = Ok p ->
  gateway_answers h verify_payment_url verification_data ->
  exists data,
    _verify_response h payment_reference s =
      ({| trace := trace s ++ [EvHttp verify_payment_url data]; db := db s |},
       Ok verification_data).
Proof.
  intros Hinit Hgateway.
  destruct (PayTabs_init_Ok _ _ Hinit) as (me & sk & Hme & Hsk).
  unfold _verify_response, payment_processor.
  rewrite Hinit, M_bind_lift_Ok, Hme, M_bind_lift_Ok, Hsk, M_bind_lift_Ok.
  unfold requests_post. rewrite Hgateway.
  match goal with |- context [EvHttp _ ?d] => exists d; generalize d; intros data end.
  reflexivity.
Qed.

(** In every case [_verify_response] leaves the database alone, emits at
    most the one call, and what it returns is what the gateway said. *)
Lemma verify_response_cases h payment_reference s :
  let r := _verify_response h payment_reference s in
  db (fst r) = db s /\
  ((trace (fst r) = trace s /\ is_ok (snd r) = false) \/
   exists data,
     data !! "payment_reference" = Some (PyStr payment_reference) /\
     trace (fst r) = trace s ++ [EvHttp verify_payment_url data] /\
     snd r = requests_post_json h verify_payment_url data).
Proof.
  unfold _verify_response, payment_processor.
  destruct (PayTabs_init h) as [p|e]; [| now split; [| left]].
  rewrite M_bind_lift_Ok.
  destruct (getitem (site_configuration h) "merchant_email") as [me|];
    [| now split; [| left]].
  rewrite M_bind_lift_Ok.
  destruct (getitem (site_configuration h) "secret_key") as [sk|];
    [| now split; [| left]].
  rewrite M_bind_lift_Ok. unfold requests_post.
  match goal with |- context [EvHttp _ ?d] =>
    assert (Hdata : d !! "payment_reference" = Some (PyStr payment_reference))
      by reflexivity;
    revert Hdata; generalize d; intros data Hdata end.
  unfold M_bind, emit, lift. cbv beta iota zeta.
  split; [reflexivity |]. right. exists data. now repeat split.
Qed.

(** [_get_basket] returns a basket exactly when the id is truthy and
    numeric, the basket exists and the offers apply. *)
Lemma get_basket_found h basket_id n found basket s :
  py_truthy basket_id = true ->
  py_int h basket_id = Ok n ->
  baskets (db s) !! n = Some found ->
  applicator_apply h found = Ok basket ->
  _get_basket h basket_id s =
    ({| trace := trace s ++ [EvBasketGet n; EvApplyOffers (Basket_id found)]; db := db s |},
     Ok (Some basket)).
Proof.
  intros Htruthy Hint Hfound Happly. unfold _get_basket. rewrite Htruthy, Hint. simpl.
  unfold try_except, M_bind, Basket_objects_get, M_bind, emit, lift. simpl.
  rewrite Hfound, Happly. simpl. now rewrite <- app_assoc.
Qed.

Lemma get_basket_non_numeric h basket_id s :
  py_int h basket_id = Raise ValueError ->
  _get_basket h basket_id s = (s, Ok None).
Proof.
  intros Hint. unfold _get_basket.
  destruct (py_truthy basket_id); [| reflexivity]. simpl.
  unfold try_except, M_bind, lift. now rewrite Hint.
Qed.

Lemma get_basket_cases h basket_id s :
  let r := _get_basket h basket_id s in
  db (fst r) = db s /\
  (exists evs, trace (fst r) = trace s ++ evs /\ Forall (fun e => quiet e = true) evs) /\
  (forall basket,
      snd r = Ok (Some basket) ->
      py_truthy basket_id = true /\
      exists n found,
        py_int h basket_id = Ok n /\
        baskets (db s) !! n = Some found /\
        applicator_apply h found = Ok basket).
Proof.
  unfold _get_basket.
  destruct (py_truthy basket_id); simpl.
  2: { split; [reflexivity |]. split; [| discriminate].
       exists []. now rewrite app_nil_r. }
  unfold try_except, M_bind, Basket_objects_get, M_bind, emit, lift.
  destruct (py_int h basket_id) as [n|e]; simpl.
  2: { destruct (caught_by_get_basket e); simpl;
         (split; [reflexivity |]; split; [| discriminate]);
         exists []; now rewrite app_nil_r. }
  destruct (baskets (db s) !! n) as [found|] eqn:Hfound; simpl.
  2: { split; [reflexivity |]. split; [| discriminate].
       exists [EvBasketGet n]. split; [reflexivity |]. now repeat constructor. }
  destruct (applicator_apply h found) as [basket|e] eqn:Happly; simpl.
  - split; [reflexivity |]. split.
    + exists [EvBasketGet n; EvApplyOffers (Basket_id found)].
      split; [now rewrite <- app_assoc |]. now repeat constructor.
    + intros b [= <-]. split; [reflexivity |]. now exists n, found.
  - destruct (caught_by_get_basket e); simpl;
      (split; [reflexivity |]; split; [| discriminate]);
      exists [EvBasketGet n; EvApplyOffers (Basket_id found)];
      (split; [now rewrite <- app_assoc |]; now repeat constructor).
Qed.

#[local] Arguments getitem : simpl never.
#[local] Arguments _verify_response : simpl never.
#[local] Arguments _get_basket : simpl never.
#[local] Arguments py_in : simpl never.
#[local] Arguments orders_created : simpl never.
#[local] Arguments verify_calls : simpl never.
#[local] Arguments gateway_calls : simpl never.
#[local] Arguments basket_lookups : simpl never.
#[local] Arguments rollbacks : simpl never.
#[local] Arguments audit_records : simpl never.

Lemma getitem_Ok (d : Dict) k v : getitem d k = Ok v -> d !! k = Some v.
Proof. unfold getitem. destruct (d !! k); now intros [= ->]. Qed.

Ltac quiet_trace :=
  eexists; split;
  [ rewrite <- ?app_assoc; reflexivity
  | repeat first [ assumption | reflexivity | apply Forall_nil
                 | apply Forall_app; split | apply Forall_cons; split ] ].

Lemma sbind_call {A B} (c : M A) (k : A -> Stmt B) f s :
  sbind (call c) k (f, s) =
    match c s with
    | (s', Ok a) => k a (f, s')
    | (s', Raise e) => ((f, s'), Raised e)
    end.
Proof. unfold sbind, call. cbn [fst snd]. now destruct (c s) as [s' [a|e]]. Qed.

(** The [try] block of [post]: it writes nothing to the database, emits
    only quiet events, and falls through only when the three lookups
    succeeded, the code is accepted and the basket is found; every
    [return] in it is the redirect to the error page. *)
Lemma post_try_cases h request s f' s' c :
  post_try h request (initial_frame, s) = ((f', s'), c) ->
  db s' = db s /\
  (exists evs, trace s' = trace s ++ evs /\ Forall (fun e => quiet e = true) evs) /\
  f_payment_processor_response f' = None /\
  match c with
  | Normal _ =>
      exists payment_reference data verification_data code basket,
        POST request !! "payment_reference" = Some payment_reference /\
        data !! "payment_reference" = Some (PyStr payment_reference) /\
        requests_post_json h verify_payment_url data = Ok verification_data /\
        verification_data !! "response_code" = Some code /\
        py_in code PAYTABS_SUCCESS_CODES = true /\
        resolves_basket h (db s) verification_data basket /\
        f_basket f' = Some basket /\
        f_verification_data f' = verification_data
  | Returned response => response = payment_error h
  | Raised _ => True
  end.
Proof.
  unfold post_try.
  destruct (POST request !! "payment_reference") as [ref|] eqn:Href; cbn.
  2: { intros [= <- <- <-]. cbn. split; [reflexivity |]. split; [quiet_trace | now split]. }
  rewrite sbind_call.
  match goal with |- context [_verify_response ?a ?b ?st] =>
    destruct (verify_response_cases a b st) as (Hdb & Hv);
    destruct (_verify_response a b st) as [s2 [vd|e]] end; cbn in *.
  2: { intros [= <- <- <-]. split; [exact Hdb |]. split; [| now split].
       destruct Hv as [[Ht _] | (data & _ & Ht & _)]; rewrite Ht; quiet_trace. }
  destruct Hv as [[_ Hok] | (data & Hdata & Ht & Hvd)]; [discriminate |].
  rewrite sbind_call. cbn.
  destruct (getitem vd "response_code") as [code|] eqn:Hcode; cbn.
  2: { intros [= <- <- <-]. split; [exact Hdb |]. split; [| now split].
       rewrite Ht. quiet_trace. }
  destruct (py_in code PAYTABS_SUCCESS_CODES) eqn:Hin; cbn.
  2: { intros [= <- <- <-].
       split; [exact Hdb |]. split; [| now split]. rewrite Ht. quiet_trace. }
  rewrite sbind_call. cbn.
  destruct (getitem vd "reference_no") as [refno|] eqn:Hrefno; cbn.
  2: { intros [= <- <- <-]. split; [exact Hdb |]. split; [| now split].
       rewrite Ht. quiet_trace. }
  rewrite sbind_call. cbn.
  destruct (order_number_basket_id h refno) as [bid|e] eqn:Hbid; cbn.
  2: { intros [= <- <- <-]. split; [exact Hdb |]. split; [| now split].
       rewrite Ht. quiet_trace. }
  rewrite sbind_call.
  destruct (get_basket_cases h bid s2) as (Hdb2 & (evs & Ht2 & Hq) & Hsome).
  destruct (_get_basket h bid s2) as [s3 [ob|e]]; cbn in *.
  2: { intros [= <- <- <-]. split; [congruence |]. split; [| now split].
       rewrite Ht2, Ht. quiet_trace. }
  assert (Htrace : exists evs', trace s3 = trace s ++ evs' /\
                                Forall (fun e => quiet e = true) evs').
  { rewrite Ht2, Ht. quiet_trace. }
  rewrite sbind_call. cbn.
  destruct (getitem vd "transaction_id") as [tx|] eqn:Htx; cbn.
  2: { intros [= <- <- <-]. split; [congruence |]. split; [exact Htrace | now split]. }
  destruct ob as [b|]; cbn; intros [= <- <- <-].
  - split; [congruence |]. split; [exact Htrace |]. split; [reflexivity |].
    exists ref, data, vd, code, b.
    destruct (Hsome b eq_refl) as (Htruthy & n & found & Hint & Hfound & Happly).
    apply getitem_Ok in Hcode, Hrefno.
    repeat split; try assumption; try reflexivity; [now symmetry |].
    exists refno, bid, n, found. rewrite <- Hdb. now repeat split.
  - cbn. split; [congruence |]. split; [| now split].
    destruct Htrace as (evs' & -> & Hq'). quiet_trace.
Qed.

Lemma quiet_not_order e : quiet e = true -> is_create_order e = false.
Proof. now destruct e. Qed.

Lemma orders_created_none t d :
  Forall (fun e => is_create_order e = false) t ->
  orders_created {| trace := t; db := d |} = 0%nat.
Proof.
  unfold orders_created, count. cbn [trace].
  induction 1 as [|e t He _ IH]; [reflexivity |]. cbn. now rewrite He.
Qed.

Ltac no_order :=
  apply orders_created_none;
  repeat first [ assumption | reflexivity | apply Forall_nil
               | apply Forall_app; split | apply Forall_cons; split ].

Lemma sbind_unfold {A B} (c : Stmt A) (k : A -> Stmt B) fs :
  sbind c k fs =
    match c fs with
    | (fs', Normal a) => k a fs'
    | (fs', Returned r) => (fs', Returned r)
    | (fs', Raised e) => (fs', Raised e)
    end.
Proof. reflexivity. Qed.

(** Every run of [post] is of one of two kinds: the three conditions
    hold and [create_order] is invoked once, or no order is created and
    an answer, if there is one, is the redirect to the error page. *)
Lemma post_outcomes h request d :
  let r := post h request (start d) in
  (order_conditions h request d /\ orders_created (fst r) = 1%nat) \/
  (orders_created (fst r) = 0%nat /\
   forall response, snd r = Ok response -> response = payment_error h).
Proof.
  unfold post, post_body. rewrite sbind_unfold. unfold try_finally.
  destruct (post_try h request (initial_frame, start d)) as [[f1 s1] c] eqn:Htry.
  apply post_try_cases in Htry as (Hdb & (evs & Ht & Hq) & Hppr & Hc).
  cbn [start trace db] in Ht, Hdb. destruct s1 as [t1 d1]. cbn in Ht, Hdb. subst t1 d1.
  assert (Hno : Forall (fun e => is_create_order e = false) evs).
  { eapply Forall_impl; [exact Hq | apply quiet_not_order]. }
  unfold post_finally. cbn. rewrite sbind_call. unfold payment_processor, lift.
  destruct (PayTabs_init h) as [p|e]; cbn.
  2: { right. split; [no_order | discriminate]. }
  destruct c as [[]|response|e]; cbn.
  2: { subst response. right. split; [no_order | now intros ? [= <-]]. }
  2: { right. split; [no_order | discriminate]. }
  destruct Hc
    as (ref & data & vd & code & b & Href & Hkey & Hdata & Hcode & Hin & Hres & Hb & Hvd).
  rewrite Hb, Hvd. cbn. rewrite sbind_call.
  unfold post_place_order, try_except, atomic, M_bind, on_db, emit, logger, emit, M_raise, M_ret.
  cbn.
  match goal with |- context [handle_payment ?a ?b ?c ?x] =>
    destruct (handle_payment a b c x) as [d2 [[]|e]] eqn:Hpay end; cbn.
  - left. split.
    + exists ref, data, vd, code, b. eexists. exists d2. repeat split; eassumption.
    + pose proof (orders_created_none evs d Hno) as Hevs. unfold orders_created in Hevs.
      destruct (create_order h b d2) as [d3 [[]|e]]; cbn;
        rewrite <- !app_assoc; unfold orders_created;
        rewrite (count_app _ _ _ _ d), Hevs; reflexivity.
  - right. split; [no_order | now intros ? [= <-]].
Qed.


(** ** Runs of [post] *)

(** After a [return] in the [try] block: the [finally] block writes the
    audit row and the returned response stands. *)
Lemma post_run_returned h request s p f s1 response :
  PayTabs_init h = Ok p ->
  post_try h request (initial_frame, s) = ((f, s1), Returned response) ->
  let row := new_row (db s1) (POST request) (f_transaction_id f) (f_basket f) in
  post h request s =
    ({| trace := trace s1 ++ [EvRecordResponse row]; db := insert_row (db s1) row |},
     Ok response).
Proof.
  intros Hinit Htry. unfold post, post_body. rewrite sbind_unfold. unfold try_finally.
  rewrite Htry. unfold post_finally. cbn. rewrite sbind_call.
  unfold payment_processor. rewrite Hinit. reflexivity.
Qed.

(** After the [try] block fell through: the audit row is written and
    order placement starts from there. *)
Lemma post_run_normal h request s p f s1 basket :
  PayTabs_init h = Ok p ->
  post_try h request (initial_frame, s) = ((f, s1), Normal tt) ->
  f_basket f = Some basket ->
  let row := new_row (db s1) (POST request) (f_transaction_id f) (Some basket) in
  post h request s =
    post_place_order h (f_verification_data f) basket row
      {| trace := trace s1 ++ [EvRecordResponse row]; db := insert_row (db s1) row |}.
Proof.
  intros Hinit Htry Hbasket. unfold post, post_body. rewrite sbind_unfold.
  unfold try_finally. rewrite Htry. unfold post_finally. cbn. rewrite sbind_call.
  unfold payment_processor. rewrite Hinit. cbn. rewrite Hbasket. cbn.
  rewrite sbind_call.
  now destruct (post_place_order _ _ _ _ _) as [s2 [r|e]].
Qed.

(** Order placement that raises: the transaction is rolled back, so the
    database is the one before it, and the answer is the error page. *)
Lemma post_place_order_raises h verification_data basket row s d2 e :
  handle_payment h verification_data basket (db s) = (d2, Raise e) ->
  post_place_order h verification_data basket row s =
    ({| trace := trace s ++
          [EvAtomicEnter;
           EvHandlePayment (Basket_id basket);
           EvLog (LogPaymentDidNotComplete (Basket_id basket) (exc_class_name e) (ppr_id row));
           EvRollback;
           EvLog (LogHandlePaymentFailed (Basket_id basket) (exc_class_name e))];
        db := db s |},
     Ok (payment_error h)).
Proof.
  intros Hpay.
  unfold post_place_order, try_except, atomic, M_bind, on_db, emit, logger, emit,
    M_raise, M_ret.
  cbn. rewrite Hpay. cbn. now rewrite <- !app_assoc.
Qed.

(** Order placement that does not raise: the transaction commits and
    [create_order] is invoked. *)
Lemma post_place_order_commits h verification_data basket row s d2 d3 o :
  handle_payment h verification_data basket (db s) = (d2, Ok tt) ->
  create_order h basket d2 = (d3, o) ->
  post_place_order h verification_data basket row s =
    ({| trace := trace s ++
          [EvAtomicEnter;
           EvHandlePayment (Basket_id basket);
           EvCommit;
           EvCreateOrder (Basket_id basket)];
        db := d3 |},
     match o with
     | Ok _ => Ok (Redirect (get_receipt_page_url h (order_number basket)))
     | Raise e => Raise e
     end).
Proof.
  intros Hpay Hcreate.
  unfold post_place_order, try_except, atomic, M_bind, on_db, emit, logger, emit,
    M_raise, M_ret.
  cbn. rewrite Hpay. cbn. rewrite Hcreate. rewrite <- !app_assoc.
  now destruct o.
Qed.


Lemma quiet_no_rollback evs :
  Forall (fun e => quiet e = true) evs -> List.filter is_rollback evs = [].
Proof.
  induction 1 as [|e evs He _ IH]; [reflexivity |].
  simpl. rewrite IH. now destruct e.
Qed.

(** Reading the observations off a trace whose first part [pre] is
    quiet. *)
Ltac observe Hq :=
  unfold verify_calls, gateway_calls, basket_lookups, orders_created, rollbacks, count,
    audit_records;
  cbn [trace db fst snd];
  rewrite <- ?app_assoc;
  rewrite ?List.filter_app, ?omap_app, ?length_app;
  rewrite ?(quiet_no_order _ Hq), ?(quiet_no_rollback _ Hq), ?(quiet_no_audit _ Hq);
  cbn; try reflexivity.

(** How [_get_basket] runs, from any state over the same database. *)
Lemma get_basket_resolves h d verification_data basket :
  resolves_basket h d verification_data basket ->
  exists reference_number basket_id evs,
    verification_data !! "reference_no" = Some reference_number /\
    order_number_basket_id h reference_number = Ok basket_id /\
    Forall (fun e => quiet e = true) evs /\
    List.filter is_verify_call evs = [] /\
    forall s, db s = d ->
      _get_basket h basket_id s = ({| trace := trace s ++ evs; db := d |}, Ok (Some basket)).
Proof.
  intros (refno & bid & n & found & Hrefno & Hbid & Htruthy & Hint & Hfound & Happly).
  exists refno, bid, [EvBasketGet n; EvApplyOffers (Basket_id found)].
  repeat split; try assumption; try reflexivity; [now repeat constructor |].
  intros s <-. now apply get_basket_found.
Qed.

Lemma get_basket_unresolved h d basket_id :
  py_int h basket_id = Raise ValueError \/
  (exists n, py_int h basket_id = Ok n /\ baskets d !! n = None) ->
  exists evs,
    Forall (fun e => quiet e = true) evs /\
    List.filter is_verify_call evs = [] /\
    forall s, db s = d ->
      _get_basket h basket_id s = ({| trace := trace s ++ evs; db := d |}, Ok None).
Proof.
  intros [Hint | (n & Hint & Hnone)].
  - exists []. split; [constructor |]. split; [reflexivity |].
    intros [t d'] Hd. cbn in Hd. subst d'.
    rewrite (get_basket_non_numeric _ _ _ Hint). cbn. now rewrite app_nil_r.
  - exists (if py_truthy basket_id then [EvBasketGet n] else []).
    split; [destruct (py_truthy basket_id); now repeat constructor |].
    split; [now destruct (py_truthy basket_id) |].
    intros [t d'] Hd. cbn in Hd. subst d'. unfold _get_basket.
    destruct (py_truthy basket_id); cbn.
    + unfold try_except, M_bind, Basket_objects_get, M_bind, emit, lift.
      rewrite Hint. cbn. now rewrite Hnone.
    + unfold M_ret. now rewrite app_nil_r.
Qed.

Lemma post_try_no_reference h request s :
  POST request !! "payment_reference" = None ->
  post_try h request (initial_frame, s) =
    ((initial_frame,
      {| trace := trace s ++ [EvLog (LogInvalidNotification (POST request))];
         db := db s |}),
     Returned (payment_error h)).
Proof. intros H. unfold post_try. now rewrite H. Qed.

(** C2, as stated, fails: a notification without [payment_reference]
    still reaches the [finally] block of [post], which writes an audit
    record. *)
Lemma C2_missing_reference_writes_audit_record :
  POST (demo_request ∅) !! "payment_reference" = None /\
  length (audit_records
            (fst (post (demo_host (demo_verified "100" "EDX-100001") mixin_handle_payment)
                    (demo_request ∅) (start demo_db)))) <> 0%nat.
Proof. split; [reflexivity |]. vm_compute. discriminate. Qed.

(** C2 (amended): on a configured site, for every POST whose body has
    no [payment_reference] the handler redirects to the error page,
    makes no call to the gateway, creates no order, and writes exactly
    one audit record, with the transaction id ['Unknown'] and no
    basket. *)
Theorem C2_missing_reference_one_audit_record h request processor d :
  PayTabs_init h = Ok processor ->
  POST request !! "payment_reference" = None ->
  let r := post h request (start d) in
  let row := new_row d (POST request) (PyStr "Unknown") None in
  snd r = Ok (payment_error h) /\
  verify_calls (fst r) = 0%nat /\
  gateway_calls (fst r) = 0%nat /\
  orders_created (fst r) = 0%nat /\
  audit_records (fst r) = [row] /\
  ppr_transaction_id row = PyStr "Unknown" /\
  ppr_basket row = None /\
  processor_responses (db (fst r)) = processor_responses d ++ [row].
Proof.
  intros Hinit Hnone r row. subst r row.
  rewrite (post_run_returned _ _ _ _ _ _ _ Hinit (post_try_no_reference _ _ _ Hnone)).
  now repeat split.
Qed.

(** The next statements share three assumptions: the site is configured
    (so that [PayTabs(site)] can be built), the POST body carries a
    [payment_reference], and the gateway answers the verify call with
    [verification_data]. *)
Section Notification.

Variables (h : Host) (request : Request) (processor : PayTabs).
Variables (payment_reference : string) (verification_data : Dict).

Hypothesis Hconfigured : PayTabs_init h = Ok processor.
Hypothesis Hreference : POST request !! "payment_reference" = Some payment_reference.
Hypothesis Hverify : gateway_answers h verify_payment_url verification_data.

(** The [try] block on a verified response with a rejected code. *)
Lemma post_try_rejected s code :
  verification_data !! "response_code" = Some code ->
  py_in code PAYTABS_SUCCESS_CODES = false ->
  exists pre,
    Forall (fun e => quiet e = true) pre /\
    length (List.filter is_verify_call pre) = 1%nat /\
    List.filter is_basket_lookup pre = [] /\
    post_try h request (initial_frame, s) =
      ((set_verification_data verification_data initial_frame,
        {| trace := trace s ++ pre; db := db s |}),
       Returned (payment_error h)).
Proof.
  intros Hcode Hin. unfold post_try. rewrite Hreference. cbn. rewrite sbind_call.
  match goal with |- context [_verify_response h ?b ?st] =>
    destruct (verify_response_run h _ b _ st Hconfigured Hverify) as (data & ->) end.
  exists [EvLog (LogReceivedNotification payment_reference);
          EvHttp verify_payment_url data;
          EvLog (LogVerificationError code (POST request))].
  split; [now repeat constructor |]. split; [reflexivity |]. split; [reflexivity |].
  cbn. rewrite sbind_call. cbn.
  rewrite (getitem_Some _ _ _ Hcode). cbn. rewrite Hin. cbn.
  now rewrite <- !app_assoc.
Qed.

(** The [try] block on an accepted code, given how the basket lookup
    runs: it falls through with the basket, or returns the error page
    without one. *)
Lemma post_try_accepted s code reference_number basket_id transaction_id evs found :
  verification_data !! "response_code" = Some code ->
  py_in code PAYTABS_SUCCESS_CODES = true ->
  verification_data !! "reference_no" = Some reference_number ->
  order_number_basket_id h reference_number = Ok basket_id ->
  verification_data !! "transaction_id" = Some transaction_id ->
  Forall (fun e => quiet e = true) evs ->
  List.filter is_verify_call evs = [] ->
  (forall s2, db s2 = db s ->
      _get_basket h basket_id s2 = ({| trace := trace s2 ++ evs; db := db s |}, Ok found)) ->
  exists pre,
    Forall (fun e => quiet e = true) pre /\
    length (List.filter is_verify_call pre) = 1%nat /\
    post_try h request (initial_frame, s) =
      ((set_transaction_id transaction_id
          (set_basket found (set_verification_data verification_data initial_frame)),
        {| trace := trace s ++ pre; db := db s |}),
       match found with
       | Some _ => Normal tt
       | None => Returned (payment_error h)
       end).
Proof.
  intros Hcode Hin Href Hbid Htx Hq Hnv Hget. unfold post_try. rewrite Hreference. cbn.
  rewrite sbind_call.
  match goal with |- context [_verify_response h ?b ?st] =>
    destruct (verify_response_run h _ b _ st Hconfigured Hverify) as (data & ->) end.
  exists ([EvLog (LogReceivedNotification payment_reference);
           EvHttp verify_payment_url data] ++ evs ++
          match found with
          | Some _ => []
          | None => [EvLog (LogNonExistentBasket basket_id)]
          end).
  split.
  { repeat first [ assumption | reflexivity | apply Forall_nil
                 | apply Forall_app; split | apply Forall_cons; split ].
    destruct found; now repeat constructor. }
  split.
  { rewrite !List.filter_app, Hnv. now destruct found. }
  cbn. rewrite sbind_call. cbn.
  rewrite (getitem_Some _ _ _ Hcode). cbn. rewrite Hin. cbn.
  rewrite sbind_call. cbn. rewrite (getitem_Some _ _ _ Href). cbn.
  rewrite sbind_call. cbn. rewrite Hbid. cbn. rewrite sbind_call.
  match goal with |- context [_get_basket h basket_id ?st] =>
    rewrite (Hget st eq_refl) end.
  cbn. rewrite sbind_call. cbn. rewrite (getitem_Some _ _ _ Htx). cbn.
  destruct found; cbn; unfold sret, return_; now rewrite <- ?app_assoc, ?app_nil_r.
Qed.

(** The run in which order placement raises. *)
Lemma post_run_failed_placement d code basket transaction_id d2 e :
  verification_data !! "response_code" = Some code ->
  py_in code PAYTABS_SUCCESS_CODES = true ->
  resolves_basket h d verification_data basket ->
  verification_data !! "transaction_id" = Some transaction_id ->
  let row := new_row d (POST request) transaction_id (Some basket) in
  handle_payment h verification_data basket (insert_row d row) = (d2, Raise e) ->
  exists pre,
    Forall (fun e => quiet e = true) pre /\
    length (List.filter is_verify_call pre) = 1%nat /\
    post h request (start d) =
      ({| trace := pre ++
            [EvRecordResponse row;
             EvAtomicEnter;
             EvHandlePayment (Basket_id basket);
             EvLog (LogPaymentDidNotComplete (Basket_id basket) (exc_class_name e)
                      (ppr_id row));
             EvRollback;
             EvLog (LogHandlePaymentFailed (Basket_id basket) (exc_class_name e))];
          db := insert_row d row |},
       Ok (payment_error h)).
Proof.
  intros Hcode Hin Hres Htx row Hpay. subst row.
  destruct (get_basket_resolves _ _ _ _ Hres)
    as (refno & bid & evs & Hrefno & Hbid & Hq & Hnv & Hget).
  destruct (post_try_accepted (start d) code refno bid transaction_id
              evs (Some basket) Hcode Hin Hrefno Hbid Htx Hq Hnv Hget)
    as (pre & Hpre & Hone & Htry).
  exists pre. split; [exact Hpre |]. split; [exact Hone |].
  rewrite (post_run_normal _ _ _ _ _ _ _ Hconfigured Htry eq_refl).
  cbn [fst snd start trace db app f_verification_data f_transaction_id
       set_transaction_id set_basket set_verification_data].
  erewrite post_place_order_raises by (cbn [db]; exact Hpay).
  cbn [fst snd trace db]. now rewrite <- app_assoc.
Qed.

(** The run in which order placement does not raise: the transaction
    commits, [create_order] is invoked once, and the answer is the
    receipt page of the basket's order unless [create_order] raises. *)
Lemma post_run_placed d code basket transaction_id d2 d3 o :
  verification_data !! "response_code" = Some code ->
  py_in code PAYTABS_SUCCESS_CODES = true ->
  resolves_basket h d verification_data basket ->
  verification_data !! "transaction_id" = Some transaction_id ->
  let row := new_row d (POST request) transaction_id (Some basket) in
  handle_payment h verification_data basket (insert_row d row) = (d2, Ok tt) ->
  create_order h basket d2 = (d3, o) ->
  let r := post h request (start d) in
  snd r = match o with
          | Ok _ => Ok (Redirect (get_receipt_page_url h (order_number basket)))
          | Raise e => Raise e
          end /\
  db (fst r) = d3 /\
  orders_created (fst r) = 1%nat /\
  rollbacks (fst r) = 0%nat /\
  audit_records (fst r) = [row].
Proof.
  intros Hcode Hin Hres Htx row Hpay Hcreate r. subst r row.
  destruct (get_basket_resolves _ _ _ _ Hres)
    as (refno & bid & evs & Hrefno & Hbid & Hq & Hnv & Hget).
  destruct (post_try_accepted (start d) code refno bid transaction_id
              evs (Some basket) Hcode Hin Hrefno Hbid Htx Hq Hnv Hget)
    as (pre & Hpre & _ & Htry).
  rewrite (post_run_normal _ _ _ _ _ _ _ Hconfigured Htry eq_refl).
  cbn [fst snd start trace db app f_verification_data f_transaction_id
       set_transaction_id set_basket set_verification_data].
  erewrite post_place_order_commits by (cbn [db]; eassumption).
  cbn [fst snd trace db].
  split; [reflexivity |]. split; [reflexivity |].
  split; [observe Hpre |]. split; observe Hpre.
Qed.

(** C7 (amended): when the verify call returns a response code outside
    the two accepted codes, the handler redirects to the error page
    after exactly one verify call, looks up no basket, creates no order,
    and writes exactly one audit record, with the transaction id
    ['Unknown'] and no basket, whether or not the reference number
    leads to a basket. *)
Theorem C7_rejected_code_one_audit_record d code :
  verification_data !! "response_code" = Some code ->
  py_in code PAYTABS_SUCCESS_CODES = false ->
  let r := post h request (start d) in
  let row := new_row d (POST request) (PyStr "Unknown") None in
  snd r = Ok (payment_error h) /\
  verify_calls (fst r) = 1%nat /\
  basket_lookups (fst r) = 0%nat /\
  orders_created (fst r) = 0%nat /\
  audit_records (fst r) = [row] /\
  ppr_transaction_id row = PyStr "Unknown" /\
  ppr_basket row = None.
Proof.
  intros Hcode Hin r row. subst r row.
  destruct (post_try_rejected (start d) code Hcode Hin) as (pre & Hq & Hone & Hnb & Htry).
  rewrite (post_run_returned _ _ _ _ _ _ _ Hconfigured Htry).
  cbn [fst snd start trace db app f_transaction_id f_basket set_verification_data
       initial_frame].
  split; [reflexivity |].
  split; [observe Hq; now rewrite Hone |].
  split; [observe Hq; now rewrite Hnb |].
  split; [observe Hq |]. split; [observe Hq |]. now split.
Qed.

(** C8: when the code is accepted and the verified reference number
    gives a basket id that is not numeric or matches no basket, the
    handler redirects to the error page and exactly one audit record is
    written, with no basket and with the verified transaction id. *)
Theorem C8_unresolved_basket_one_audit_record
    d code reference_number basket_id transaction_id :
  verification_data !! "response_code" = Some code ->
  py_in code PAYTABS_SUCCESS_CODES = true ->
  verification_data !! "reference_no" = Some reference_number ->
  order_number_basket_id h reference_number = Ok basket_id ->
  verification_data !! "transaction_id" = Some transaction_id ->
  py_int h basket_id = Raise ValueError \/
  (exists n, py_int h basket_id = Ok n /\ baskets d !! n = None) ->
  let r := post h request (start d) in
  let row := new_row d (POST request) transaction_id None in
  snd r = Ok (payment_error h) /\
  audit_records (fst r) = [row] /\
  ppr_transaction_id row = transaction_id /\
  ppr_basket row = None /\
  verify_calls (fst r) = 1%nat /\
  orders_created (fst r) = 0%nat.
Proof.
  intros Hcode Hin Hrefno Hbid Htx Hunresolved r row. subst r row.
  destruct (get_basket_unresolved _ _ _ Hunresolved) as (evs & Hq & Hnv & Hget).
  destruct (post_try_accepted (start d) code reference_number basket_id transaction_id
              evs None Hcode Hin Hrefno Hbid Htx Hq Hnv Hget)
    as (pre & Hpre & Hone & Htry).
  rewrite (post_run_returned _ _ _ _ _ _ _ Hconfigured Htry).
  cbn [fst snd start trace db app f_transaction_id f_basket set_transaction_id
       set_basket].
  split; [reflexivity |]. split; [observe Hpre |].
  split; [reflexivity |]. split; [reflexivity |].
  split; [observe Hpre; now rewrite Hone | observe Hpre].
Qed.

(** C9: when the code is accepted, the basket is found and
    [handle_payment] raises, the transaction is rolled back and the
    handler redirects to the error page; the database is the one right
    after the audit write, so the audit record stays and no order goes
    with it. *)
Theorem C9_failed_placement_keeps_audit_record d code basket transaction_id d2 e :
  verification_data !! "response_code" = Some code ->
  py_in code PAYTABS_SUCCESS_CODES = true ->
  resolves_basket h d verification_data basket ->
  verification_data !! "transaction_id" = Some transaction_id ->
  let row := new_row d (POST request) transaction_id (Some basket) in
  handle_payment h verification_data basket (insert_row d row) = (d2, Raise e) ->
  let r := post h request (start d) in
  snd r = Ok (payment_error h) /\
  rollbacks (fst r) = 1%nat /\
  db (fst r) = insert_row d row /\
  audit_records (fst r) = [row] /\
  row ∈ processor_responses (db (fst r)) /\
  orders (db (fst r)) = orders d /\
  orders_created (fst r) = 0%nat.
Proof.
  intros Hcode Hin Hres Htx row Hpay r. subst r.
  destruct (post_run_failed_placement d code basket transaction_id d2 e
              Hcode Hin Hres Htx Hpay) as (pre & Hq & _ & ->).
  fold row. cbn [fst snd db].
  split; [reflexivity |]. split; [observe Hq |]. split; [reflexivity |].
  split; [observe Hq |].
  split; [cbn; apply elem_of_app; right; apply list_elem_of_singleton; reflexivity |].
  split; [reflexivity | observe Hq].
Qed.

(** C10: a verified response code ['111'] passes the check of the view,
    yet [handle_processor_response] raises on it; with an order
    placement that hands the response to the processor, no order is
    created for such a notification, and when its basket is found the
    transaction is rolled back and the handler redirects to the error
    page. *)
Theorem C10_code_111_never_creates_order d :
  verification_data !! "response_code" = Some (PyStr "111") ->
  handle_payment_calls_processor h ->
  let r := post h request (start d) in
  py_in (PyStr "111") PAYTABS_SUCCESS_CODES = true /\
  handle_processor_response verification_data
    = Raise (PayTabsException processor_error_message) /\
  orders_created (fst r) = 0%nat /\
  (forall basket transaction_id,
      resolves_basket h d verification_data basket ->
      verification_data !! "transaction_id" = Some transaction_id ->
      snd r = Ok (payment_error h) /\
      rollbacks (fst r) = 1%nat /\
      audit_records (fst r) = [new_row d (POST request) transaction_id (Some basket)]).
Proof.
  intros Hcode Hhost r.
  assert (Hraise : handle_processor_response verification_data
                   = Raise (PayTabsException processor_error_message)).
  { apply (handle_processor_response_rejects _ _ Hcode). discriminate. }
  split; [reflexivity |]. split; [exact Hraise |]. split.
  - destruct (post_outcomes h request d) as [[Hcond _] | [Hzero _]]; [| exact Hzero].
    exfalso.
    destruct Hcond
      as (ref & data & vd & code & b & d1 & d2' & _ & _ & Hdata & _ & _ & _ & Hpay).
    rewrite Hverify in Hdata. injection Hdata as <-.
    specialize (Hhost verification_data b d1 _ Hraise). rewrite Hpay in Hhost.
    discriminate.
  - intros basket transaction_id Hres Htx.
    destruct (handle_payment h verification_data basket
                (insert_row d (new_row d (POST request) transaction_id (Some basket))))
      as [d2 o] eqn:Hpay.
    pose proof (Hhost verification_data basket
                  (insert_row d (new_row d (POST request) transaction_id (Some basket)))
                  _ Hraise) as Ho.
    rewrite Hpay in Ho. cbn in Ho. subst o. subst r.
    destruct (post_run_failed_placement d (PyStr "111") basket transaction_id d2 _
                Hcode eq_refl Hres Htx Hpay) as (pre & Hq & _ & ->).
    cbn [fst snd].
    split; [reflexivity |]. split; observe Hq.
Qed.

End Notification.



(** ** The properties on the concrete site *)

Lemma demo_host_calls_processor gateway :
  handle_payment_calls_processor (demo_host gateway mixin_handle_payment).
Proof.
  intros response basket d e H. cbn. unfold mixin_handle_payment. rewrite H. reflexivity.
Defined.

(** The end-to-end example of the specification: order number
    [EDX-100001], verify response with code ['100'] and transaction
    [T1]; the basket is found, the order is placed in one transaction
    and the answer is the basket's receipt page. *)
Example end_to_end_receipt :
  let r := post (demo_host (demo_verified "100" "EDX-100001") mixin_handle_payment)
             demo_notification (start demo_db) in
  snd r = Ok (Redirect "/checkout/receipt/?order_number=EDX-100001") /\
  orders_created (fst r) = 1%nat /\
  orders (db (fst r)) = ["EDX-100001"] /\
  verify_calls (fst r) = 1%nat /\
  length (audit_records (fst r)) = 1%nat /\
  rollbacks (fst r) = 0%nat.
Proof. vm_compute. now repeat split. Qed.

(** The other example of the specification: a verify response with
    code ['481'] gives the error page and no order. *)
Example code_481_error_page :
  let r := post (demo_host {[ "response_code" := PyStr "481" ]} mixin_handle_payment)
             demo_notification (start demo_db) in
  snd r = Ok (Redirect "/checkout/error/") /\ orders_created (fst r) = 0%nat.
Proof. vm_compute. now split. Qed.

(** A POST with an empty body on the concrete site. *)
Lemma C2_missing_reference_one_audit_record_witness :
  let r := post (demo_host (demo_verified "100" "EDX-100001") mixin_handle_payment)
             (demo_request ∅) (start demo_db) in
  snd r = Ok (Redirect "/checkout/error/") /\
  gateway_calls (fst r) = 0%nat /\
  length (audit_records (fst r)) = 1%nat.
Proof.
  pose proof (C2_missing_reference_one_audit_record
              (demo_host (demo_verified "100" "EDX-100001") mixin_handle_payment)
              (demo_request ∅) demo_processor demo_db ltac:(reflexivity) ltac:(reflexivity)) as W.
  cbv zeta in W. destruct W as (Hans & _ & Hcalls & _ & Haudit & _).
  split; [exact Hans |]. split; [exact Hcalls |]. now rewrite Haudit.
Defined.

(** C7, as stated, fails: the number of audit records does not depend on
    whether a basket can be found. With the rejected code ['481'] one
    record is written both when the reference number leads to a basket
    of the database and when it leads to none; it is never zero. *)
Lemma C7_audit_count_independent_of_basket :
  let run reference_no :=
    fst (post (demo_host (demo_verified "481" reference_no) mixin_handle_payment)
           demo_notification (start demo_db)) in
  resolves_basket (demo_host (demo_verified "481" "EDX-100001") mixin_handle_payment)
    demo_db (demo_verified "481" "EDX-100001") (demo_basket (PyStr "SA")) /\
  (forall basket,
      ~ resolves_basket (demo_host (demo_verified "481" "EDX-100002") mixin_handle_payment)
          demo_db (demo_verified "481" "EDX-100002") basket) /\
  length (audit_records (run "EDX-100001")) = 1%nat /\
  length (audit_records (run "EDX-100002")) = 1%nat /\
  length (audit_records (run "EDX-100002")) <> 0%nat.
Proof.
  split.
  { exists (PyStr "EDX-100001"), (PyInt 1), 1, (demo_basket (PyStr "SA")).
    now repeat split. }
  split.
  { intros basket (refno & bid & n & found & Hrefno & Hbid & _ & Hint & Hfound & _).
    vm_compute in Hrefno. injection Hrefno as <-.
    vm_compute in Hbid. injection Hbid as <-.
    cbn in Hint. injection Hint as <-.
    vm_compute in Hfound. discriminate. }
  vm_compute. repeat split. discriminate.
Qed.

(** The code ['481'] on the concrete site. *)
Lemma C7_rejected_code_one_audit_record_witness :
  let r := post (demo_host (demo_verified "481" "EDX-100001") mixin_handle_payment)
             demo_notification (start demo_db) in
  snd r = Ok (Redirect "/checkout/error/") /\
  verify_calls (fst r) = 1%nat /\
  basket_lookups (fst r) = 0%nat /\
  length (audit_records (fst r)) = 1%nat.
Proof.
  pose proof (C7_rejected_code_one_audit_record
              (demo_host (demo_verified "481" "EDX-100001") mixin_handle_payment)
              demo_notification demo_processor "123456" (demo_verified "481" "EDX-100001")
              ltac:(reflexivity) ltac:(reflexivity) ltac:(intros ?; reflexivity) demo_db (PyStr "481") ltac:(reflexivity) ltac:(reflexivity)) as W.
  cbv zeta in W. destruct W as (Hans & Hverify & Hlookups & _ & Haudit & _).
  split; [exact Hans |]. split; [exact Hverify |]. split; [exact Hlookups |].
  now rewrite Haudit.
Defined.

(** An order number whose basket is not in the database, and one whose
    basket id is not a number. *)
Lemma C8_unresolved_basket_one_audit_record_witness :
  (let r := post (demo_host (demo_verified "100" "EDX-100002") mixin_handle_payment)
              demo_notification (start demo_db) in
   snd r = Ok (Redirect "/checkout/error/") /\
   (ppr_transaction_id <$> audit_records (fst r)) = [PyStr "T1"] /\
   (ppr_basket <$> audit_records (fst r)) = [None]) /\
  (let r := post (demo_host (demo_verified "100" "EDX-abc") mixin_handle_payment)
              demo_notification (start demo_db) in
   snd r = Ok (Redirect "/checkout/error/") /\
   (ppr_transaction_id <$> audit_records (fst r)) = [PyStr "T1"] /\
   (ppr_basket <$> audit_records (fst r)) = [None]).
Proof.
  split.
  - pose proof (C8_unresolved_basket_one_audit_record
                (demo_host (demo_verified "100" "EDX-100002") mixin_handle_payment)
                demo_notification demo_processor "123456" (demo_verified "100" "EDX-100002")
                ltac:(reflexivity) ltac:(reflexivity) ltac:(intros ?; reflexivity) demo_db
                (PyStr "100") (PyStr "EDX-100002") (PyInt 2) (PyStr "T1")
                ltac:(reflexivity) ltac:(reflexivity) ltac:(reflexivity) ltac:(reflexivity) ltac:(reflexivity)
                ltac:(right; exists 2; split; reflexivity)) as W.
 cbv zeta in W. destruct W as (Hans & Haudit & _).
    split; [exact Hans |]. rewrite Haudit. split; reflexivity.
  - pose proof (C8_unresolved_basket_one_audit_record
                (demo_host (demo_verified "100" "EDX-abc") mixin_handle_payment)
                demo_notification demo_processor "123456" (demo_verified "100" "EDX-abc")
                ltac:(reflexivity) ltac:(reflexivity) ltac:(intros ?; reflexivity) demo_db
                (PyStr "100") (PyStr "EDX-abc") (PyStr "abc") (PyStr "T1")
                ltac:(reflexivity) ltac:(reflexivity) ltac:(reflexivity) ltac:(reflexivity) ltac:(reflexivity) ltac:(left; reflexivity)) as W.
 cbv zeta in W. destruct W as (Hans & Haudit & _).
    split; [exact Hans |]. rewrite Haudit. split; reflexivity.
Defined.

Lemma demo_resolves code :
  resolves_basket (demo_host (demo_verified code "EDX-100001") failing_handle_payment)
    demo_db (demo_verified code "EDX-100001") (demo_basket (PyStr "SA")).
Proof.
  exists (PyStr "EDX-100001"), (PyInt 1), 1, (demo_basket (PyStr "SA")).
  repeat split; reflexivity.
Defined.

(** An audit record without an order is a final state that is reached. *)
Lemma C9_failed_placement_keeps_audit_record_witness :
  let r := post (demo_host (demo_verified "100" "EDX-100001") failing_handle_payment)
             demo_notification (start demo_db) in
  snd r = Ok (Redirect "/checkout/error/") /\
  rollbacks (fst r) = 1%nat /\
  length (processor_responses (db (fst r))) = 1%nat /\
  payment_sources (db (fst r)) = [] /\
  orders (db (fst r)) = [] /\
  orders_created (fst r) = 0%nat.
Proof.
  pose proof (C9_failed_placement_keeps_audit_record
              (demo_host (demo_verified "100" "EDX-100001") failing_handle_payment)
              demo_notification demo_processor "123456" (demo_verified "100" "EDX-100001")
              ltac:(reflexivity) ltac:(reflexivity) ltac:(intros ?; reflexivity) demo_db
              (PyStr "100") (demo_basket (PyStr "SA")) (PyStr "T1")
              _ (OtherError "PaymentError")
              ltac:(reflexivity) ltac:(reflexivity) (demo_resolves "100") ltac:(reflexivity) ltac:(reflexivity)) as W.
  cbv zeta in W. destruct W as (Hans & Hroll & Hdb & _ & _ & Horders & Hnone).
  split; [exact Hans |]. split; [exact Hroll |].
  rewrite Hdb. split; [reflexivity |]. split; [reflexivity |].
  split; [reflexivity | exact Hnone].
Defined.

Lemma demo_resolves_mixin code :
  resolves_basket (demo_host (demo_verified code "EDX-100001") mixin_handle_payment)
    demo_db (demo_verified code "EDX-100001") (demo_basket (PyStr "SA")).
Proof.
  exists (PyStr "EDX-100001"), (PyInt 1), 1, (demo_basket (PyStr "SA")).
  repeat split; reflexivity.
Defined.

(** The code ['111'] for the basket of the concrete site. *)
Lemma C10_code_111_never_creates_order_witness :
  let r := post (demo_host (demo_verified "111" "EDX-100001") mixin_handle_payment)
             demo_notification (start demo_db) in
  snd r = Ok (Redirect "/checkout/error/") /\
  orders_created (fst r) = 0%nat /\
  rollbacks (fst r) = 1%nat.
Proof.
  pose proof (C10_code_111_never_creates_order
              (demo_host (demo_verified "111" "EDX-100001") mixin_handle_payment)
              demo_notification demo_processor "123456" (demo_verified "111" "EDX-100001")
              ltac:(reflexivity) ltac:(reflexivity) ltac:(intros ?; reflexivity) demo_db
              ltac:(reflexivity) (demo_host_calls_processor _)) as W.
  cbv zeta in W. destruct W as (_ & _ & Hnone & Hfound).
  destruct (Hfound (demo_basket (PyStr "SA")) (PyStr "T1") (demo_resolves_mixin "111") ltac:(reflexivity))
    as (Hans & Hroll & _).
  split; [exact Hans |]. split; [exact Hnone | exact Hroll].
Defined.




(** * Further properties of the processor *)

(** ** The extended profile *)

Lemma get_extended_field_in_find fields field_name default_val :
  Forall (fun field : Dict => is_Some (field !! "field_name")) fields ->
  get_extended_field_in fields field_name default_val
  = Ok (extended_value fields field_name default_val).
Proof.
  unfold extended_value.
  induction 1 as [|field fields [name Hname] _ IH]; [reflexivity |].
  cbn [get_extended_field_in List.find]. rewrite (getitem_Some _ _ _ Hname).
  unfold obind, named, py_eq. rewrite Hname.
  destruct (decide (name = PyStr field_name)) as [-> | Hne].
  - now rewrite !bool_decide_eq_true_2.
  - rewrite !bool_decide_eq_false_2; [exact IH | congruence | exact Hne].
Qed.

(** X1: over an extended profile whose fields all carry a
    ['field_name'], [get_extended_field] gives the value of the first
    field with the requested name, read with the default, and the
    default when no field has the name; later fields of the same name
    are not looked at. *)
Theorem X1_get_extended_field_first_match account_details fields field_name default_val :
  extended_profile account_details = Some fields ->
  Forall (fun field : Dict => is_Some (field !! "field_name")) fields ->
  get_extended_field account_details field_name default_val
  = Ok (extended_value fields field_name default_val).
Proof.
  intros Hprofile Hnamed. unfold get_extended_field. rewrite Hprofile.
  now apply get_extended_field_in_find.
Qed.

(** Of two fields called [city] the first one is read; a field without
    a value gives the default; so does an absent field. *)
Lemma X1_get_extended_field_first_match_witness :
  let account_details :=
    {| country := PyStr "SA"; extended_profile := Some demo_duplicate_fields |} in
  get_extended_field account_details "city" PyNone = Ok (PyStr "Jeddah") /\
  get_extended_field account_details "last_name" (PyStr "-") = Ok (PyStr "-") /\
  get_extended_field account_details "ZIP/Postal Code" (PyStr "11564") = Ok (PyStr "11564").
Proof.
  assert (Hnamed : Forall (fun field : Dict => is_Some (field !! "field_name"))
                     demo_duplicate_fields).
  { repeat constructor; eexists; reflexivity. }
  split; [| split].
  - exact (X1_get_extended_field_first_match
             {| country := PyStr "SA"; extended_profile := Some demo_duplicate_fields |}
             demo_duplicate_fields "city" PyNone ltac:(reflexivity) Hnamed).
  - exact (X1_get_extended_field_first_match
             {| country := PyStr "SA"; extended_profile := Some demo_duplicate_fields |}
             demo_duplicate_fields "last_name" (PyStr "-") ltac:(reflexivity) Hnamed).
  - exact (X1_get_extended_field_first_match
             {| country := PyStr "SA"; extended_profile := Some demo_duplicate_fields |}
             demo_duplicate_fields "ZIP/Postal Code" (PyStr "11564")
             ltac:(reflexivity) Hnamed).
Defined.

(** X2: a field without ['field_name'] that comes before any field of
    the requested name makes [get_extended_field] raise [KeyError], also
    when a field of that name follows. *)
Theorem X2_get_extended_field_unnamed_field
    account_details before field after field_name default_val :
  extended_profile account_details = Some (before ++ field :: after) ->
  Forall (fun f : Dict => exists name, f !! "field_name" = Some name
                                       /\ name <> PyStr field_name) before ->
  field !! "field_name" = None ->
  get_extended_field account_details field_name default_val
  = Raise (KeyError "field_name").
Proof.
  intros Hprofile Hbefore Hfield. unfold get_extended_field. rewrite Hprofile.
  clear Hprofile. induction Hbefore as [|f before (name & Hname & Hne) _ IH].
  - cbn. now rewrite (getitem_None _ _ Hfield).
  - cbn. rewrite (getitem_Some _ _ _ Hname). unfold obind.
    apply py_eq_false in Hne. rewrite Hne. exact IH.
Qed.

Lemma X2_get_extended_field_unnamed_field_witness :
  get_extended_field
    {| country := PyStr "SA";
       extended_profile := Some [
         list_to_map [("field_name", PyStr "state"); ("field_value", PyStr "Riyadh")];
         list_to_map [("field_value", PyStr "Jeddah")];
         list_to_map [("field_name", PyStr "city"); ("field_value", PyStr "Mecca")]
       ] |} "city" PyNone
  = Raise (KeyError "field_name").
Proof.
  apply (X2_get_extended_field_unnamed_field _
           [list_to_map [("field_name", PyStr "state"); ("field_value", PyStr "Riyadh")]]
           (list_to_map [("field_value", PyStr "Jeddah")])
           [list_to_map [("field_name", PyStr "city"); ("field_value", PyStr "Mecca")]]).
  - reflexivity.
  - repeat constructor. exists (PyStr "state"). split; [reflexivity | discriminate].
  - reflexivity.
Defined.

(** X3: for a buyer whose country is set and known to [pycountry] and
    whose extended profile has only named fields,
    [_get_user_profile_data] returns the profile made of the first
    field of each name, with [None] for an absent name, ['11564'] for
    an absent postal code, and the three-letter country code. *)
Theorem X3_profile_of_named_fields h user fields code :
  py_truthy (country (account_details user)) = true ->
  pycountry_alpha_3 h (country (account_details user)) = Ok code ->
  extended_profile (account_details user) = Some fields ->
  Forall (fun field : Dict => is_Some (field !! "field_name")) fields ->
  _get_user_profile_data h user =
    Ok {| first_name := extended_value fields "first_name" PyNone;
          last_name := extended_value fields "last_name" PyNone;
          mailing_address := extended_value fields "mailing_address" PyNone;
          city := extended_value fields "city" PyNone;
          country_code := code;
          postal_code := extended_value fields "ZIP/Postal Code" (PyStr "11564");
          state := extended_value fields "state" PyNone |}.
Proof.
  intros Hset Hknown Hprofile Hnamed. unfold _get_user_profile_data, get_extended_field.
  rewrite Hset, Hknown, Hprofile. unfold obind.
  now rewrite !(get_extended_field_in_find _ _ _ Hnamed).
Qed.

(** The buyer of the concrete site: no postal code, address or state in
    the profile. *)
Lemma X3_profile_of_named_fields_witness :
  _get_user_profile_data (demo_host demo_pay_page mixin_handle_payment)
    (demo_user (PyStr "SA")) =
    Ok {| first_name := PyStr "Ada";
          last_name := PyStr "Lovelace";
          mailing_address := PyNone;
          city := PyStr "Riyadh";
          country_code := "SAU";
          postal_code := PyStr "11564";
          state := PyNone |}.
Proof.
  refine (X3_profile_of_named_fields (demo_host demo_pay_page mixin_handle_payment)
            (demo_user (PyStr "SA")) _ "SAU"
            ltac:(reflexivity) ltac:(reflexivity) ltac:(reflexivity) _).
  repeat constructor; eexists; reflexivity.
Defined.

(** ** The basket lines *)

Lemma collect_products_appends h lines : forall acc products,
  collect_products h lines acc = Ok products ->
  names products = names acc ++ map _get_course_id_title lines /\
  quantities products = quantities acc ++ map (fun line => pretty (quantity line)) lines /\
  exists ps, prices products = prices acc ++ ps /\ Forall2 (priced h) lines ps.
Proof.
  induction lines as [|line lines IH]; intros acc products Hrun.
  - injection Hrun as <-. rewrite !app_nil_r. repeat split. exists [].
    rewrite app_nil_r. now split.
  - cbn [collect_products] in Hrun.
    destruct (decimal_div h (line_price_incl_tax_incl_discounts line) (quantity line))
      as [unit_price|e] eqn:Hdiv; [| discriminate].
    cbn [obind] in Hrun. apply IH in Hrun as (Hn & Hq & ps & Hp & Hps).
    cbn [names quantities prices] in Hn, Hq, Hp.
    rewrite Hn, Hq, Hp, <- !app_assoc. repeat split.
    exists (decimal_str h unit_price :: ps). split; [reflexivity |].
    constructor; [now exists unit_price | exact Hps].
Qed.

(** X4: when the loop over the basket lines succeeds, the three lists
    follow the lines one to one and in order: the name of a line is its
    title after the course id, its quantity is printed, and its price is
    the printed quotient of the line price by the quantity. *)
Theorem X4_products_follow_lines h lines products :
  collect_products h lines no_products = Ok products ->
  names products = map _get_course_id_title lines /\
  quantities products = map (fun line => pretty (quantity line)) lines /\
  Forall2 (priced h) lines (prices products) /\
  length (names products) = length lines /\
  length (prices products) = length lines.
Proof.
  intros Hrun. apply collect_products_appends in Hrun as (Hn & Hq & ps & Hp & Hps).
  cbn in Hn, Hq, Hp. subst ps. repeat split; try assumption.
  - now rewrite Hn, length_map.
  - symmetry. exact (Forall2_length _ _ _ Hps).
Qed.

Lemma X4_products_follow_lines_witness :
  exists products,
    collect_products (demo_host demo_pay_page mixin_handle_payment)
      [demo_line; demo_second_line] no_products = Ok products /\
    names products = ["course-v1:edX+DemoX+Demo|Seat in Demo Course"; "Donation"] /\
    quantities products = ["1"; "2"] /\
    length (prices products) = 2%nat.
Proof.
  eexists. split; [vm_compute; reflexivity |].
  match goal with |- names ?p = _ /\ _ =>
    destruct (X4_products_follow_lines (demo_host demo_pay_page mixin_handle_payment)
                [demo_line; demo_second_line] p ltac:(vm_compute; reflexivity))
      as (Hn & Hq & _ & _ & Hl) end.
  split; [exact Hn |]. split; [exact Hq | exact Hl].
Defined.

(** X5: the loop over the basket lines succeeds exactly when every line
    price can be divided by its quantity; the exception of the first
    line that cannot is the one raised, whatever follows. *)
Theorem X5_products_need_every_line_priced h lines :
  (is_ok (collect_products h lines no_products) = true <->
   Forall (fun line =>
             is_ok (decimal_div h (line_price_incl_tax_incl_discounts line)
                      (quantity line)) = true) lines) /\
  (forall before line after e,
      lines = before ++ line :: after ->
      Forall (fun l => is_ok (decimal_div h (line_price_incl_tax_incl_discounts l)
                                (quantity l)) = true) before ->
      decimal_div h (line_price_incl_tax_incl_discounts line) (quantity line) = Raise e ->
      collect_products h lines no_products = Raise e).
Proof.
  split.
  - generalize no_products.
    induction lines as [|line lines IH]; intros acc.
    + split; [constructor | reflexivity].
    + cbn [collect_products].
      destruct (decimal_div h (line_price_incl_tax_incl_discounts line) (quantity line))
        as [unit_price|e] eqn:Hdiv; cbn [obind].
      * rewrite IH. split.
        -- intros H. constructor; [now rewrite Hdiv | exact H].
        -- intros H. now inversion H.
      * split; [discriminate |]. intros H. inversion H as [|? ? Hline _]; subst.
        rewrite Hdiv in Hline. discriminate.
  - intros before line after e -> Hbefore Hline. generalize no_products.
    induction Hbefore as [|l before Hl _ IH]; intros acc.
    + cbn. now rewrite Hline.
    + cbn [app collect_products].
      destruct (decimal_div h (line_price_incl_tax_incl_discounts l) (quantity l));
        [| discriminate].
      cbn [obind]. apply IH.
Qed.

(** A line of quantity zero between two good lines: the division fails
    and so does the loop. *)
Lemma X5_products_need_every_line_priced_witness :
  collect_products (demo_host demo_pay_page mixin_handle_payment)
    [demo_line; demo_zero_line; demo_second_line] no_products
  = Raise (OtherError "DivisionByZero").
Proof.
  refine (proj2 (X5_products_need_every_line_priced
                   (demo_host demo_pay_page mixin_handle_payment)
                   [demo_line; demo_zero_line; demo_second_line])
            [demo_line] demo_zero_line [demo_second_line] _
            ltac:(reflexivity) _ ltac:(reflexivity)).
  repeat constructor.
Defined.

(** ** The request to the gateway *)

(** Every run of [get_transaction_parameters]: nothing is sent unless the
    profile, the lines and the configured phone code are all there, and
    then exactly [pay_data] is posted to the create-pay-page address. *)
Lemma get_transaction_parameters_posts h self basket request s :
  let r := get_transaction_parameters h self basket request s in
  (fst r = s /\ is_ok (snd r) = false /\
   ~ (is_ok (_get_user_profile_data h (owner basket)) = true /\
      is_ok (collect_products h (all_lines basket) no_products) = true /\
      is_Some (configuration self !! "default_phone_number_country_code"))) \/
  (exists profile products phone,
      _get_user_profile_data h (owner basket) = Ok profile /\
      collect_products h (all_lines basket) no_products = Ok products /\
      configuration self !! "default_phone_number_country_code" = Some phone /\
      fst r = {| trace := trace s ++
                   [EvHttp create_pay_page_url
                      (pay_data h self basket request profile products phone)];
                 db := db s |}).
Proof.
  unfold get_transaction_parameters. fold no_products.
  destruct (_get_user_profile_data h (owner basket)) as [profile|e] eqn:Hprofile.
  2: { left. rewrite M_bind_lift_Raise. split; [reflexivity |]. split; [reflexivity |].
       now intros [? _]. }
  rewrite M_bind_lift_Ok.
  destruct (collect_products h (all_lines basket) no_products) as [products|e] eqn:Hproducts.
  2: { left. rewrite M_bind_lift_Raise. split; [reflexivity |]. split; [reflexivity |].
       now intros (_ & ? & _). }
  rewrite M_bind_lift_Ok.
  destruct (configuration self !! "default_phone_number_country_code") as [phone|] eqn:Hphone.
  2: { left. rewrite (getitem_None _ _ Hphone), M_bind_lift_Raise.
       split; [reflexivity |]. split; [reflexivity |].
       intros (_ & _ & [? ?]). discriminate. }
  rewrite (getitem_Some _ _ _ Hphone), M_bind_lift_Ok. right. exists profile, products, phone.
  split; [reflexivity |]. split; [reflexivity |]. split; [reflexivity |].
  change (list_to_map _) with (pay_data h self basket request profile products phone).
  generalize (pay_data h self basket request profile products phone). intros data.
  unfold requests_post, M_bind, emit, lift, M_raise, M_ret. cbv beta iota zeta.
  destruct (requests_post_json h create_pay_page_url data) as [response|e];
    [| reflexivity].
  destruct (negb _); [| reflexivity].
  destruct (getitem response "response_code"); [| reflexivity].
  now destruct (getitem response "result").
Qed.

Lemma get_transaction_parameters_posts_pay_data
    h self basket request s profile products phone :
  _get_user_profile_data h (owner basket) = Ok profile ->
  collect_products h (all_lines basket) no_products = Ok products ->
  configuration self !! "default_phone_number_country_code" = Some phone ->
  fst (get_transaction_parameters h self basket request s) =
    {| trace := trace s ++
         [EvHttp create_pay_page_url (pay_data h self basket request profile products phone)];
       db := db s |}.
Proof.
  intros Hprofile Hproducts Hphone.
  destruct (get_transaction_parameters_posts h self basket request s)
    as [(_ & _ & Hnot) | (profile' & products' & phone' & Hp & Hl & Hc & Hrun)].
  - exfalso. apply Hnot. rewrite Hprofile, Hproducts, Hphone. now repeat split.
  - rewrite Hprofile in Hp. rewrite Hproducts in Hl. rewrite Hphone in Hc.
    injection Hp as <-. injection Hl as <-. injection Hc as <-. exact Hrun.
Qed.

Lemma gateway_calls_snoc t url data d :
  gateway_calls {| trace := t ++ [EvHttp url data]; db := d |}
  = S (gateway_calls {| trace := t; db := d |}).
Proof.
  unfold gateway_calls, count. cbn [trace].
  rewrite List.filter_app, length_app. cbn. lia.
Qed.

(** X6: [get_transaction_parameters] never writes the database and never
    calls the verify address; it calls the gateway at most once, and
    exactly when the buyer's profile, the basket lines and the
    configured phone code could all be read. *)
Theorem X6_gateway_called_once_when_data_ready h self basket request s :
  let r := get_transaction_parameters h self basket request s in
  db (fst r) = db s /\
  verify_calls (fst r) = verify_calls s /\
  (gateway_calls (fst r) <= S (gateway_calls s))%nat /\
  (gateway_calls (fst r) = S (gateway_calls s) <->
   is_ok (_get_user_profile_data h (owner basket)) = true /\
   is_ok (collect_products h (all_lines basket) no_products) = true /\
   is_Some (configuration self !! "default_phone_number_country_code")).
Proof.
  intros r. subst r.
  destruct (get_transaction_parameters_posts h self basket request s)
    as [(-> & _ & Hnot) | (profile & products & phone & Hp & Hl & Hc & ->)].
  - split; [reflexivity |]. split; [reflexivity |]. split; [lia |].
    split; [intros H; lia | intros H; contradiction].
  - generalize (pay_data h self basket request profile products phone). intros data.
    destruct s as [t d]. cbn [fst trace db]. rewrite gateway_calls_snoc.
    split; [reflexivity |]. split.
    { unfold verify_calls, count. cbn [trace].
      rewrite List.filter_app, length_app. cbn [List.filter is_verify_call].
      rewrite bool_decide_eq_false_2 by discriminate. cbn. lia. }
    split; [lia |]. split; [| reflexivity].
    intros _. rewrite Hp, Hl, Hc. now repeat split.
Qed.

(** X7: the request posted to the gateway identifies the order: the
    reference number is the basket's order number, the title carries
    it, the amount and the currency are the basket's, the credentials
    are the processor's, and the return address is the configured base
    URL followed by the path of the notification view. *)
Theorem X7_pay_data_identifies_order
    h self basket request s profile products phone :
  _get_user_profile_data h (owner basket) = Ok profile ->
  collect_products h (all_lines basket) no_products = Ok products ->
  configuration self !! "default_phone_number_country_code" = Some phone ->
  exists data,
    trace (fst (get_transaction_parameters h self basket request s))
      = trace s ++ [EvHttp create_pay_page_url data] /\
    data !! "reference_no" = Some (PyStr (order_number basket)) /\
    data !! "title" = Some (PyStr ("Order: " +:+ order_number basket)) /\
    data !! "amount" = Some (PyStr (decimal_str h (total_incl_tax basket))) /\
    data !! "currency" = Some (currency basket) /\
    data !! "merchant_email" = Some (merchant_email self) /\
    data !! "secret_key" = Some (secret_key self) /\
    data !! "return_url"
      = Some (PyStr (py_str (return_base_url self) +:+ reverse h "paytabs:paytabs-submit")) /\
    data !! "cc_phone_number" = Some phone /\
    size data = 34%nat.
Proof.
  intros Hprofile Hproducts Hphone.
  rewrite (get_transaction_parameters_posts_pay_data _ _ _ _ _ _ _ _
             Hprofile Hproducts Hphone).
  exists (pay_data h self basket request profile products phone).
  split; [reflexivity |]. repeat split; vm_compute; reflexivity.
Qed.

(** The basket of the concrete site. *)
Lemma X7_pay_data_identifies_order_witness :
  exists data,
    trace (fst (get_transaction_parameters (demo_host demo_pay_page mixin_handle_payment)
                  demo_processor (demo_basket (PyStr "SA")) (demo_request ∅)
                  (start demo_db)))
      = [EvHttp create_pay_page_url data] /\
    data !! "reference_no" = Some (PyStr "EDX-100001") /\
    data !! "title" = Some (PyStr "Order: EDX-100001") /\
    data !! "return_url" = Some (PyStr "https://shop.example.com/payment/paytabs/submit").
Proof.
  edestruct (X7_pay_data_identifies_order (demo_host demo_pay_page mixin_handle_payment)
               demo_processor (demo_basket (PyStr "SA")) (demo_request ∅) (start demo_db))
    as (data & Htrace & Href & Htitle & _ & _ & _ & _ & Hreturn & _);
    [vm_compute; reflexivity | vm_compute; reflexivity | reflexivity |].
  exists data. split; [exact Htrace |]. split; [exact Href |].
  split; [exact Htitle | exact Hreturn].
Defined.

(** X8: in the request posted to the gateway the merchant's IP is always
    ['-']; the customer's IP is the client's only when it is routable
    and ['-'] otherwise; the language is the language cookie when it is
    set and not empty, and the site's language code otherwise. *)
Theorem X8_pay_data_fallbacks
    h self basket request s profile products phone :
  _get_user_profile_data h (owner basket) = Ok profile ->
  collect_products h (all_lines basket) no_products = Ok products ->
  configuration self !! "default_phone_number_country_code" = Some phone ->
  exists data,
    trace (fst (get_transaction_parameters h self basket request s))
      = trace s ++ [EvHttp create_pay_page_url data] /\
    data !! "ip_merchant" = Some (PyStr "-") /\
    (is_routable request = true -> data !! "ip_customer" = Some (client_ip request)) /\
    (is_routable request = false -> data !! "ip_customer" = Some (PyStr "-")) /\
    (forall c, language_cookie request = Some c -> c <> "" ->
               data !! "msg_lang" = Some (PyStr c)) /\
    (language_cookie request = None \/ language_cookie request = Some "" ->
     data !! "msg_lang" = Some (PyStr (LANGUAGE_CODE h))).
Proof.
  intros Hprofile Hproducts Hphone.
  rewrite (get_transaction_parameters_posts_pay_data _ _ _ _ _ _ _ _
             Hprofile Hproducts Hphone).
  exists (pay_data h self basket request profile products phone).
  split; [reflexivity |]. split; [vm_compute; reflexivity |].
  assert (Hip : pay_data h self basket request profile products phone !! "ip_customer"
                = Some (if is_routable request then client_ip request else PyStr "-"))
    by (vm_compute; reflexivity).
  assert (Hlang : pay_data h self basket request profile products phone !! "msg_lang"
                  = Some (PyStr match language_cookie request with
                                | Some c => if bool_decide (c = "") then LANGUAGE_CODE h else c
                                | None => LANGUAGE_CODE h
                                end)).
  { unfold pay_data.
    generalize (match language_cookie request with
                | Some c => if bool_decide (c = "") then LANGUAGE_CODE h else c
                | None => LANGUAGE_CODE h
                end).
    intros lang. vm_compute. reflexivity. }
  rewrite Hip, Hlang. split; [now intros -> |]. split; [now intros -> |]. split.
  - intros c -> Hc. now rewrite bool_decide_eq_false_2.
  - intros [-> | ->]; [reflexivity |]. now rewrite bool_decide_eq_true_2.
Qed.

(** A client on a private network with an Arabic language cookie. *)
Lemma X8_pay_data_fallbacks_witness :
  exists data,
    trace (fst (get_transaction_parameters (demo_host demo_pay_page mixin_handle_payment)
                  demo_processor (demo_basket (PyStr "SA")) demo_private_request
                  (start demo_db)))
      = [EvHttp create_pay_page_url data] /\
    data !! "ip_customer" = Some (PyStr "-") /\
    data !! "msg_lang" = Some (PyStr "ar").
Proof.
  edestruct (X8_pay_data_fallbacks (demo_host demo_pay_page mixin_handle_payment)
               demo_processor (demo_basket (PyStr "SA")) demo_private_request
               (start demo_db))
    as (data & Htrace & _ & _ & Hip & Hlang & _);
    [vm_compute; reflexivity | vm_compute; reflexivity | reflexivity |].
  exists data. split; [exact Htrace |]. split; [exact (Hip eq_refl) |].
  apply (Hlang "ar" eq_refl). discriminate.
Defined.

(** X9: the request posted to the gateway takes the buyer's fields from
    the profile, once for billing and once for shipping with the same
    values, and the product fields from the basket lines, joined with
    [' || '] in line order. *)
Theorem X9_pay_data_profile_and_products
    h self basket request s profile products phone :
  _get_user_profile_data h (owner basket) = Ok profile ->
  collect_products h (all_lines basket) no_products = Ok products ->
  configuration self !! "default_phone_number_country_code" = Some phone ->
  exists data,
    trace (fst (get_transaction_parameters h self basket request s))
      = trace s ++ [EvHttp create_pay_page_url data] /\
    data !! "shipping_first_name" = data !! "cc_first_name" /\
    data !! "shipping_last_name" = data !! "cc_last_name" /\
    data !! "address_shipping" = data !! "billing_address" /\
    data !! "city_shipping" = data !! "city" /\
    data !! "state_shipping" = data !! "state" /\
    data !! "postal_code_shipping" = data !! "postal_code" /\
    data !! "country_shipping" = data !! "country" /\
    data !! "cc_first_name" = Some (first_name profile) /\
    data !! "billing_address" = Some (mailing_address profile) /\
    data !! "postal_code" = Some (postal_code profile) /\
    data !! "country" = Some (PyStr (country_code profile)) /\
    data !! "email" = Some (email (owner basket)) /\
    data !! "products_per_title"
      = Some (PyStr (String.concat " || " (map _get_course_id_title (all_lines basket)))) /\
    data !! "quantity"
      = Some (PyStr (String.concat " || "
                       (map (fun line => pretty (quantity line)) (all_lines basket)))).
Proof.
  intros Hprofile Hproducts Hphone.
  rewrite (get_transaction_parameters_posts_pay_data _ _ _ _ _ _ _ _
             Hprofile Hproducts Hphone).
  exists (pay_data h self basket request profile products phone).
  split; [reflexivity |].
  apply collect_products_appends in Hproducts as (Hn & Hq & _).
  cbn in Hn, Hq. rewrite <- Hn, <- Hq.
  repeat split; vm_compute; reflexivity.
Qed.

Lemma X9_pay_data_profile_and_products_witness :
  exists data,
    trace (fst (get_transaction_parameters (demo_host demo_pay_page mixin_handle_payment)
                  demo_processor (demo_basket (PyStr "SA")) (demo_request ∅)
                  (start demo_db)))
      = [EvHttp create_pay_page_url data] /\
    data !! "country_shipping" = Some (PyStr "SAU") /\
    data !! "postal_code_shipping" = Some (PyStr "11564") /\
    data !! "products_per_title"
      = Some (PyStr "course-v1:edX+DemoX+Demo|Seat in Demo Course").
Proof.
  edestruct (X9_pay_data_profile_and_products
               (demo_host demo_pay_page mixin_handle_payment)
               demo_processor (demo_basket (PyStr "SA")) (demo_request ∅) (start demo_db))
    as (data & Htrace & _ & _ & _ & _ & _ & Hpostal & Hcountry & _ & _ & Hp & Hc & _ & Hnames & _);
    [vm_compute; reflexivity | vm_compute; reflexivity | reflexivity |].
  exists data. split; [exact Htrace |].
  split; [rewrite Hcountry; exact Hc |]. split; [rewrite Hpostal; exact Hp | exact Hnames].
Defined.

(** * Further properties of the view *)

(** ** The processor of a site *)

Lemma PayTabs_init_cases h :
  (exists p merchant secret,
      PayTabs_init h = Ok p /\
      site_configuration h !! "merchant_email" = Some merchant /\
      site_configuration h !! "secret_key" = Some secret /\
      merchant_email p = merchant /\ secret_key p = secret) \/
  (exists key, PayTabs_init h = Raise (KeyError key) /\ site_configuration h !! key = None).
Proof.
  unfold PayTabs_init, getitem.
  destruct (site_configuration h !! "merchant_email") as [me|] eqn:Hme; cbn [obind];
    [| right; now exists "merchant_email"].
  destruct (site_configuration h !! "secret_key") as [sk|] eqn:Hsk; cbn [obind];
    [| right; now exists "secret_key"].
  destruct (site_configuration h !! "return_base_url") as [url|] eqn:Hurl; cbn [obind];
    [| right; now exists "return_base_url"].
  left. eexists. exists me, sk. now repeat split.
Qed.

(** X10: a processor can be built for a site exactly when its
    configuration has the three keys [merchant_email], [secret_key] and
    [return_base_url]; the processor then carries their values and the
    whole configuration. The phone code is not asked for. *)
Theorem X10_processor_needs_three_keys h :
  ((exists p, PayTabs_init h = Ok p) <->
   is_Some (site_configuration h !! "merchant_email") /\
   is_Some (site_configuration h !! "secret_key") /\
   is_Some (site_configuration h !! "return_base_url")) /\
  (forall p, PayTabs_init h = Ok p ->
     site_configuration h !! "merchant_email" = Some (merchant_email p) /\
     site_configuration h !! "secret_key" = Some (secret_key p) /\
     site_configuration h !! "return_base_url" = Some (return_base_url p) /\
     configuration p = site_configuration h) /\
  (forall e, PayTabs_init h = Raise e ->
     exists key, e = KeyError key /\ site_configuration h !! key = None).
Proof.
  unfold PayTabs_init, getitem.
  destruct (site_configuration h !! "merchant_email") as [me|] eqn:Hme; cbn [obind].
  2: { split; [| split].
       - split; [intros [p Hp]; discriminate | intros ([? ?] & _); discriminate].
       - discriminate.
       - intros e [= <-]. now exists "merchant_email". }
  destruct (site_configuration h !! "secret_key") as [sk|] eqn:Hsk; cbn [obind].
  2: { split; [| split].
       - split; [intros [p Hp]; discriminate | intros (_ & [? ?] & _); discriminate].
       - discriminate.
       - intros e [= <-]. now exists "secret_key". }
  destruct (site_configuration h !! "return_base_url") as [url|] eqn:Hurl; cbn [obind].
  2: { split; [| split].
       - split; [intros [p Hp]; discriminate | intros (_ & _ & [? ?]); discriminate].
       - discriminate.
       - intros e [= <-]. now exists "return_base_url". }
  split; [| split].
  - split; [intros _; repeat split; eexists; reflexivity | intros _; eexists; reflexivity].
  - intros p [= <-]. now repeat split.
  - discriminate.
Qed.

(** X11: with a processor whose configuration has no
    [default_phone_number_country_code], [get_transaction_parameters]
    raises [KeyError] for a buyer and a basket that are in order, and
    nothing is sent to the gateway. *)
Theorem X11_no_phone_code_fails_before_gateway
    h self basket request s profile products :
  _get_user_profile_data h (owner basket) = Ok profile ->
  collect_products h (all_lines basket) no_products = Ok products ->
  configuration self !! "default_phone_number_country_code" = None ->
  get_transaction_parameters h self basket request s
  = (s, Raise (KeyError "default_phone_number_country_code")).
Proof.
  intros Hprofile Hproducts Hphone. unfold get_transaction_parameters. fold no_products.
  now rewrite Hprofile, M_bind_lift_Ok, Hproducts, M_bind_lift_Ok,
    (getitem_None _ _ Hphone), M_bind_lift_Raise.
Qed.

Lemma X11_no_phone_code_fails_before_gateway_witness :
  let r := get_transaction_parameters (demo_host demo_pay_page mixin_handle_payment)
             demo_processor_without_phone (demo_basket (PyStr "SA")) (demo_request ∅)
             (start demo_db) in
  snd r = Raise (KeyError "default_phone_number_country_code") /\ trace (fst r) = [].
Proof.
  erewrite (X11_no_phone_code_fails_before_gateway
              (demo_host demo_pay_page mixin_handle_payment)
              demo_processor_without_phone (demo_basket (PyStr "SA")) (demo_request ∅)
              (start demo_db));
    [now split | vm_compute; reflexivity | vm_compute; reflexivity | reflexivity].
Defined.

(** ** The verify call *)

(** X12: [_verify_response] never writes the database. On a site for
    which a processor can be built it posts exactly the two credentials
    of the configuration and the payment reference to the verify
    address, once, and returns or raises what the call gives; on any
    other site it raises [KeyError] for a missing key and posts
    nothing. *)
Theorem X12_verify_posts_credentials_and_reference h payment_reference s :
  let r := _verify_response h payment_reference s in
  db (fst r) = db s /\
  ((exists p,
       PayTabs_init h = Ok p /\
       let data := api_parameters (merchant_email p) (secret_key p) payment_reference in
       fst r = {| trace := trace s ++ [EvHttp verify_payment_url data]; db := db s |} /\
       snd r = requests_post_json h verify_payment_url data /\
       data !! "payment_reference" = Some (PyStr payment_reference) /\
       data !! "merchant_email" = site_configuration h !! "merchant_email" /\
       data !! "secret_key" = site_configuration h !! "secret_key" /\
       size data = 3%nat) \/
   (exists key,
       PayTabs_init h = Raise (KeyError key) /\
       site_configuration h !! key = None /\
       fst r = s /\ snd r = Raise (KeyError key))).
Proof.
  destruct (PayTabs_init_cases h) as [(p & me & sk & Hinit & Hme & Hsk & Hpme & Hpsk) | (key & Hinit & Hkey)].
  - unfold _verify_response, payment_processor.
    rewrite Hinit, M_bind_lift_Ok, (getitem_Some _ _ _ Hme), M_bind_lift_Ok,
      (getitem_Some _ _ _ Hsk), M_bind_lift_Ok.
    split; [reflexivity |]. left. exists p. split; [reflexivity |].
    change (list_to_map _) with (api_parameters me sk payment_reference).
    cbv zeta. rewrite Hpme, Hpsk, Hme, Hsk.
    split; [reflexivity |]. split; [reflexivity |].
    repeat split; vm_compute; reflexivity.
  - unfold _verify_response, payment_processor. rewrite Hinit, M_bind_lift_Raise.
    split; [reflexivity |]. right. now exists key.
Qed.

(** ** The basket lookup *)

Lemma get_basket_events h basket_id s :
  let r := _get_basket h basket_id s in
  db (fst r) = db s /\
  (exists evs, trace (fst r) = trace s ++ evs /\ lookup_events evs) /\
  (py_truthy basket_id = false -> r = (s, Ok None)) /\
  (forall e, snd r = Raise e ->
     caught_by_get_basket e = false /\
     exists n found,
       py_int h basket_id = Ok n /\ baskets (db s) !! n = Some found /\
       applicator_apply h found = Raise e).
Proof.
  unfold _get_basket.
  destruct (py_truthy basket_id) eqn:Htruthy; cbn [negb].
  2: { split; [reflexivity |]. split; [| split; [reflexivity | discriminate]].
       exists []. rewrite app_nil_r. split; [reflexivity | now left]. }
  unfold try_except, M_bind, Basket_objects_get, M_bind, emit, lift, M_ret.
  destruct (py_int h basket_id) as [n|e] eqn:Hint; cbn.
  2: { assert (e = ValueError) as ->.
       { destruct basket_id as [|str|k]; cbn in Hint; [discriminate | | discriminate].
         destruct (int_of_str h str); now inversion Hint. }
       cbn. split; [reflexivity |]. split; [| split; discriminate].
       exists []. rewrite app_nil_r. split; [reflexivity | now left]. }
  destruct (baskets (db s) !! n) as [found|] eqn:Hfound; cbn.
  2: { split; [reflexivity |]. split; [| split; discriminate].
       exists [EvBasketGet n]. split; [reflexivity | right; left; now exists n]. }
  assert (Hlookup : lookup_events [EvBasketGet n; EvApplyOffers (Basket_id found)]).
  { right. right. now exists n, (Basket_id found). }
  destruct (applicator_apply h found) as [basket|e] eqn:Happly; cbn.
  - split; [reflexivity |]. split; [| split; discriminate].
    eexists. split; [rewrite <- app_assoc; reflexivity | exact Hlookup].
  - destruct (caught_by_get_basket e) eqn:Hcaught; cbn.
    + split; [reflexivity |]. split; [| split; discriminate].
      eexists. split; [rewrite <- app_assoc; reflexivity | exact Hlookup].
    + split; [reflexivity |]. split.
      { eexists. split; [rewrite <- app_assoc; reflexivity | exact Hlookup]. }
      split; [discriminate |]. intros e' [= <-]. split; [exact Hcaught |].
      now exists n, found.
Qed.

(** X13: [_get_basket] never writes the database and looks a basket up
    at most once; for an id that is falsy ([None], [0], the empty
    string) it returns [None] without any lookup; and it raises only
    when the basket was found and applying the offers raised something
    other than [ValueError] or [ObjectDoesNotExist]. *)
Theorem X13_get_basket_is_a_guarded_lookup h basket_id s :
  let r := _get_basket h basket_id s in
  db (fst r) = db s /\
  (basket_lookups (fst r) <= S (basket_lookups s))%nat /\
  gateway_calls (fst r) = gateway_calls s /\
  (py_truthy basket_id = false -> r = (s, Ok None)) /\
  (forall e, snd r = Raise e ->
     caught_by_get_basket e = false /\
     exists n found,
       py_int h basket_id = Ok n /\ baskets (db s) !! n = Some found /\
       applicator_apply h found = Raise e).
Proof.
  intros r. subst r.
  destruct (get_basket_events h basket_id s) as (Hdb & (evs & Ht & Hevs) & Hfalsy & Hraise).
  split; [exact Hdb |].
  destruct (_get_basket h basket_id s) as [[t d] o]. cbn [fst snd trace db] in *. subst t.
  unfold basket_lookups, gateway_calls, count. cbn [trace].
  rewrite !List.filter_app, !length_app.
  split; [| split; [| split; [exact Hfalsy | exact Hraise]]];
    destruct Hevs as [-> | [[n ->] | (n & id & ->)]]; cbn; lia.
Qed.

(** ** The shape of every run of [post] *)

Ltac try_events_ok :=
  unfold try_events;
  split; [repeat constructor
         | split; [vm_compute; lia | split; [reflexivity | vm_compute; lia]]].

Ltac try_trace :=
  eexists; split; [rewrite <- ?app_assoc; reflexivity | try_events_ok].

Lemma post_try_events h request s f' s' c :
  post_try h request (initial_frame, s) = ((f', s'), c) ->
  exists pre, trace s' = trace s ++ pre /\ try_events pre.
Proof.
  unfold post_try.
  destruct (POST request !! "payment_reference") as [ref|] eqn:Href; cbn.
  2: { intros [= <- <- <-]. cbn. try_trace. }
  rewrite sbind_call.
  match goal with |- context [_verify_response ?a ?b ?st] =>
    destruct (verify_response_cases a b st) as (_ & Hv);
    destruct (_verify_response a b st) as [s2 [vd|e]] end; cbn in *.
  2: { intros [= <- <- <-].
       destruct Hv as [[Ht _] | (data & _ & Ht & _)]; rewrite Ht; try_trace. }
  destruct Hv as [[_ Hok] | (data & _ & Ht & _)]; [discriminate |].
  rewrite sbind_call. cbn.
  destruct (getitem vd "response_code") as [code|] eqn:Hcode; cbn.
  2: { intros [= <- <- <-]. rewrite Ht. try_trace. }
  destruct (py_in code PAYTABS_SUCCESS_CODES) eqn:Hin; cbn.
  2: { intros [= <- <- <-]. cbn. rewrite Ht. try_trace. }
  rewrite sbind_call. cbn.
  destruct (getitem vd "reference_no") as [refno|] eqn:Hrefno; cbn.
  2: { intros [= <- <- <-]. rewrite Ht. try_trace. }
  rewrite sbind_call. cbn.
  destruct (order_number_basket_id h refno) as [bid|e] eqn:Hbid; cbn.
  2: { intros [= <- <- <-]. rewrite Ht. try_trace. }
  rewrite sbind_call.
  destruct (get_basket_events h bid s2) as (_ & (evs & Ht2 & Hevs) & _).
  destruct (_get_basket h bid s2) as [s3 [ob|e]]; cbn in *.
  2: { intros [= <- <- <-]. rewrite Ht2, Ht.
       destruct Hevs as [-> | [[n ->] | (n & id & ->)]]; try_trace. }
  rewrite sbind_call. cbn.
  destruct (getitem vd "transaction_id") as [tx|] eqn:Htx; cbn.
  2: { intros [= <- <- <-]. rewrite Ht2, Ht.
       destruct Hevs as [-> | [[n ->] | (n & id & ->)]]; try_trace. }
  destruct ob as [b|]; cbn; intros [= <- <- <-]; cbn; rewrite Ht2, Ht;
    destruct Hevs as [-> | [[n ->] | (n & id & ->)]]; try_trace.
Qed.

(** Every run of [post] on a configured site: the events of the [try]
    block, then the audit row and one of the three endings; the
    database is the old one with the audit row unless the order
    placement went through. *)
Lemma post_shape h request d p :
  PayTabs_init h = Ok p ->
  let r := post h request (start d) in
  exists pre transaction_id basket rest,
    let row := new_row d (POST request) transaction_id basket in
    try_events pre /\
    trace (fst r) = pre ++ rest /\
    closing_events row rest /\
    (List.filter is_create_order rest = [] ->
     db (fst r) = insert_row d row /\
     (forall response, snd r = Ok response -> response = payment_error h)).
Proof.
  intros Hinit. unfold post, post_body. rewrite sbind_unfold. unfold try_finally.
  destruct (post_try h request (initial_frame, start d)) as [[f1 s1] c] eqn:Htry.
  destruct (post_try_events _ _ _ _ _ _ Htry) as (pre & Ht & Hpre).
  apply post_try_cases in Htry as (Hdb & _ & Hppr & Hc).
  cbn [start trace db] in Ht, Hdb. destruct s1 as [t1 d1]. cbn in Ht, Hdb. subst t1 d1.
  unfold post_finally. cbn. rewrite sbind_call. unfold payment_processor, lift.
  rewrite Hinit. cbn.
  exists pre, (f_transaction_id f1), (f_basket f1).
  destruct c as [[]|response|e]; cbn.
  2: { subst response. eexists. split; [exact Hpre |]. split; [reflexivity |].
       split; [now left |]. intros _. split; [reflexivity | now intros ? [= <-]]. }
  2: { eexists. split; [exact Hpre |]. split; [reflexivity |].
       split; [now left |]. intros _. split; [reflexivity | discriminate]. }
  destruct Hc
    as (ref & data & vd & code & b & Href & Hkey & Hdata & Hcode & Hin & Hres & Hb & Hvd).
  rewrite Hb, Hvd. cbn. rewrite sbind_call.
  unfold post_place_order, try_except, atomic, M_bind, on_db, emit, logger, emit, M_raise, M_ret.
  cbn.
  match goal with |- context [handle_payment ?a ?b ?c ?x] =>
    destruct (handle_payment a b c x) as [d2 [[]|e]] eqn:Hpay end; cbn.
  - destruct (create_order h b d2) as [d3 [[]|e]]; cbn;
      (eexists; split; [exact Hpre |]; split; [rewrite <- !app_assoc; reflexivity |];
       split; [right; right; now exists (Basket_id b) | discriminate]).
  - eexists. split; [exact Hpre |]. split; [rewrite <- !app_assoc; reflexivity |].
    split; [right; left; now eexists _, _, _ |].
    intros _. split; [reflexivity | now intros ? [= <-]].
Qed.

(** On a site for which no processor can be built, [post] logs the
    notification and raises: the verify call is not made and the
    [finally] block raises before it records anything. *)
Lemma post_unconfigured h request s e :
  PayTabs_init h = Raise e ->
  exists l,
    post h request s = ({| trace := trace s ++ [EvLog l]; db := db s |}, Raise e).
Proof.
  intros Hinit. unfold post, post_body. rewrite sbind_unfold.
  unfold try_finally, post_try, post_finally.
  destruct (POST request !! "payment_reference") as [ref|]; cbn.
  - rewrite sbind_call. unfold _verify_response, payment_processor.
    rewrite Hinit, M_bind_lift_Raise. cbn. now eexists.
  - rewrite sbind_call. unfold payment_processor, lift. rewrite Hinit. now eexists.
Qed.

Lemma filter_quiet p evs :
  (forall e, quiet e = true -> p e = false) ->
  Forall (fun e => quiet e = true) evs -> List.filter p evs = [].
Proof.
  intros Hp. induction 1 as [|e evs He _ IH]; [reflexivity |].
  cbn. now rewrite (Hp e He).
Qed.

(** X14: on a configured site every run of [post] calls
    [record_processor_response] exactly once, whatever the notification
    is and however the run ends (an answer or an exception): the one
    audit record holds the raw POST body under the processor's name. *)
Theorem X14_one_audit_record_per_notification h request d p :
  PayTabs_init h = Ok p ->
  let r := post h request (start d) in
  exists transaction_id basket,
    audit_records (fst r) = [new_row d (POST request) transaction_id basket] /\
    ppr_response <$> audit_records (fst r) = [POST request] /\
    ppr_processor_name <$> audit_records (fst r) = ["paytabs"] /\
    length (audit_records (fst r)) = 1%nat.
Proof.
  intros Hinit r. subst r.
  destruct (post_shape h request d p Hinit) as (pre & tx & b & rest & Hpre & Ht & Hrest & _).
  exists tx, b.
  assert (Haudit : audit_records (fst (post h request (start d)))
                   = [new_row d (POST request) tx b]).
  { unfold audit_records. rewrite Ht, omap_app.
    rewrite (quiet_no_audit _ (proj1 Hpre)).
    destruct Hrest as [-> | [(id & l1 & l2 & ->) | (id & ->)]]; reflexivity. }
  rewrite Haudit. now repeat split.
Qed.

Lemma X14_one_audit_record_per_notification_witness :
  length (audit_records
            (fst (post (demo_host (demo_verified "100" "EDX-100001") mixin_handle_payment)
                    demo_notification (start demo_db)))) = 1%nat /\
  length (audit_records
            (fst (post (demo_host ∅ mixin_handle_payment)
                    demo_notification (start demo_db)))) = 1%nat.
Proof.
  split.
  - destruct (X14_one_audit_record_per_notification
                (demo_host (demo_verified "100" "EDX-100001") mixin_handle_payment)
                demo_notification demo_db demo_processor ltac:(reflexivity))
      as (tx & b & _ & _ & _ & Hone).
    exact Hone.
  - destruct (X14_one_audit_record_per_notification
                (demo_host ∅ mixin_handle_payment)
                demo_notification demo_db demo_processor ltac:(reflexivity))
      as (tx & b & _ & _ & _ & Hone).
    exact Hone.
Defined.

(** X15: on a site whose configuration lacks one of the three keys of
    the processor, [post] raises [KeyError] for every request, also for
    one without [payment_reference]; it calls the gateway not at all,
    writes no audit record, creates no order and leaves the database as
    it was. *)
Theorem X15_unconfigured_site_raises h request d e :
  PayTabs_init h = Raise e ->
  let r := post h request (start d) in
  snd r = Raise e /\
  (exists key, e = KeyError key /\ site_configuration h !! key = None) /\
  db (fst r) = d /\
  audit_records (fst r) = [] /\
  gateway_calls (fst r) = 0%nat /\
  orders_created (fst r) = 0%nat.
Proof.
  intros Hinit r. subst r.
  destruct (post_unconfigured h request (start d) e Hinit) as (l & ->).
  split; [reflexivity |]. split.
  { destruct (PayTabs_init_cases h) as [(p & _ & _ & Hp & _) | (key & Hkey & Hnone)].
    - rewrite Hp in Hinit. discriminate.
    - rewrite Hkey in Hinit. injection Hinit as <-. now exists key. }
  now repeat split.
Qed.

(** A site without [secret_key]: a paid notification and an empty POST
    both end in [KeyError], with nothing recorded. *)
Lemma X15_unconfigured_site_raises_witness :
  (let r := post demo_unconfigured_host demo_notification (start demo_db) in
   snd r = Raise (KeyError "secret_key") /\ audit_records (fst r) = []) /\
  (let r := post demo_unconfigured_host (demo_request ∅) (start demo_db) in
   snd r = Raise (KeyError "secret_key") /\ audit_records (fst r) = []).
Proof.
  split.
  - pose proof (X15_unconfigured_site_raises demo_unconfigured_host demo_notification
                  demo_db (KeyError "secret_key") ltac:(reflexivity)) as W.
    cbv zeta in W. destruct W as (Hraise & _ & _ & Haudit & _). now split.
  - pose proof (X15_unconfigured_site_raises demo_unconfigured_host (demo_request ∅)
                  demo_db (KeyError "secret_key") ltac:(reflexivity)) as W.
    cbv zeta in W. destruct W as (Hraise & _ & _ & Haudit & _). now split.
Defined.

(** X16: in every run of [post] the gateway is called at most once and
    only at the verify address, a basket is looked up at most once, at
    most one transaction is opened, every opened transaction is either
    committed or rolled back, and [create_order] is invoked exactly
    when a transaction was committed. *)
Theorem X16_post_effects_are_bounded h request d :
  let r := post h request (start d) in
  (gateway_calls (fst r) <= 1)%nat /\
  verify_calls (fst r) = gateway_calls (fst r) /\
  (basket_lookups (fst r) <= 1)%nat /\
  (transactions (fst r) <= 1)%nat /\
  (commits (fst r) + rollbacks (fst r))%nat = transactions (fst r) /\
  orders_created (fst r) = commits (fst r).
Proof.
  intros r. subst r.
  destruct (PayTabs_init h) as [p|e] eqn:Hinit.
  2: { destruct (post_unconfigured h request (start d) e Hinit) as (l & ->).
       vm_compute. repeat split; lia. }
  destruct (post_shape h request d p Hinit)
    as (pre & tx & b & rest & (Hq & Hone & Hverify & Hlookup) & Ht & Hrest & _).
  destruct (post h request (start d)) as [[t d'] o]. cbn [fst trace] in *. subst t.
  unfold gateway_calls, verify_calls, basket_lookups, transactions, commits, rollbacks,
    orders_created, count. cbn [trace].
  rewrite !List.filter_app, !length_app, <- Hverify.
  rewrite (filter_quiet is_atomic_enter pre), (filter_quiet is_commit pre),
    (filter_quiet is_rollback pre), (filter_quiet is_create_order pre);
    try exact Hq; try (now intros []).
  destruct Hrest as [-> | [(id & l1 & l2 & ->) | (id & ->)]]; cbn; repeat split; lia.
Qed.

(** X17: on a configured site a run of [post] that does not invoke
    [create_order] leaves the baskets, the payment rows and the orders
    of the database untouched; it only adds its one row to the audit
    table, also when the order placement had written rows before it
    raised. *)
Theorem X17_without_order_only_the_audit_table_grows h request d p :
  PayTabs_init h = Ok p ->
  let r := post h request (start d) in
  orders_created (fst r) = 0%nat ->
  baskets (db (fst r)) = baskets d /\
  payment_sources (db (fst r)) = payment_sources d /\
  orders (db (fst r)) = orders d /\
  exists row,
    processor_responses (db (fst r)) = processor_responses d ++ [row] /\
    audit_records (fst r) = [row] /\
    ppr_response row = POST request.
Proof.
  intros Hinit r Hnone. subst r.
  destruct (post_shape h request d p Hinit)
    as (pre & tx & b & rest & Hpre & Ht & Hrest & Hframe).
  assert (Hrest_none : List.filter is_create_order rest = []).
  { unfold orders_created, count in Hnone. rewrite Ht, List.filter_app, length_app in Hnone.
    destruct Hrest as [-> | [(id & l1 & l2 & ->) | (id & ->)]];
      [reflexivity | reflexivity |].
    cbn in Hnone. lia. }
  destruct (Hframe Hrest_none) as (Hdb & _). rewrite Hdb.
  repeat split. exists (new_row d (POST request) tx b).
  split; [reflexivity |]. split; [| reflexivity].
  unfold audit_records. rewrite Ht, omap_app, (quiet_no_audit _ (proj1 Hpre)).
  destruct Hrest as [-> | [(id & l1 & l2 & ->) | (id & ->)]];
    [reflexivity | reflexivity | discriminate].
Qed.

(** The failing order placement of the concrete site writes a payment
    row before it raises; the row is gone in the end. *)
Lemma X17_without_order_only_the_audit_table_grows_witness :
  let r := post (demo_host (demo_verified "100" "EDX-100001") failing_handle_payment)
             demo_notification (start demo_db) in
  payment_sources (db (fst r)) = [] /\
  orders (db (fst r)) = [] /\
  length (processor_responses (db (fst r))) = 1%nat.
Proof.
  pose proof (X17_without_order_only_the_audit_table_grows
                (demo_host (demo_verified "100" "EDX-100001") failing_handle_payment)
                demo_notification demo_db demo_processor
                ltac:(reflexivity) ltac:(vm_compute; reflexivity)) as W.
  destruct W as (_ & Hsources & Horders & row & Hrows & _).
  split; [exact Hsources |]. split; [exact Horders |]. now rewrite Hrows.
Defined.

(** X18: for a notification whose verified code is accepted and whose
    basket is found, when [handle_payment] and [create_order] do not
    raise, the transaction is committed, [create_order] is invoked once
    and the handler redirects to the receipt page of the basket's order
    number; the audit record carries the basket and the verified
    transaction id. *)
Theorem X18_paid_notification_is_redirected_to_receipt
    h request processor payment_reference verification_data
    d code basket transaction_id d2 d3 :
  PayTabs_init h = Ok processor ->
  POST request !! "payment_reference" = Some payment_reference ->
  gateway_answers h verify_payment_url verification_data ->
  verification_data !! "response_code" = Some code ->
  py_in code PAYTABS_SUCCESS_CODES = true ->
  resolves_basket h d verification_data basket ->
  verification_data !! "transaction_id" = Some transaction_id ->
  let row := new_row d (POST request) transaction_id (Some basket) in
  handle_payment h verification_data basket (insert_row d row) = (d2, Ok tt) ->
  create_order h basket d2 = (d3, Ok tt) ->
  let r := post h request (start d) in
  snd r = Ok (Redirect (get_receipt_page_url h (order_number basket))) /\
  db (fst r) = d3 /\
  orders_created (fst r) = 1%nat /\
  rollbacks (fst r) = 0%nat /\
  audit_records (fst r) = [row] /\
  ppr_basket row = Some (Basket_id basket) /\
  ppr_transaction_id row = transaction_id.
Proof.
  intros Hinit Href Hverify Hcode Hin Hres Htx row Hpay Hcreate r.
  destruct (post_run_placed h request processor payment_reference verification_data
              Hinit Href Hverify d code basket transaction_id d2 d3 (Ok tt)
              Hcode Hin Hres Htx Hpay Hcreate) as (Hans & Hdb & Hone & Hroll & Haudit).
  now repeat split.
Qed.

Lemma X18_paid_notification_is_redirected_to_receipt_witness :
  let r := post (demo_host (demo_verified "100" "EDX-100001") mixin_handle_payment)
             demo_notification (start demo_db) in
  snd r = Ok (Redirect "/checkout/receipt/?order_number=EDX-100001") /\
  orders (db (fst r)) = ["EDX-100001"] /\
  orders_created (fst r) = 1%nat.
Proof.
  pose proof (X18_paid_notification_is_redirected_to_receipt
                (demo_host (demo_verified "100" "EDX-100001") mixin_handle_payment)
                demo_notification demo_processor "123456" (demo_verified "100" "EDX-100001")
                demo_db (PyStr "100") (demo_basket (PyStr "SA")) (PyStr "T1") _ _
                ltac:(reflexivity) ltac:(reflexivity) ltac:(intros ?; reflexivity)
                ltac:(reflexivity) ltac:(reflexivity) (demo_resolves_mixin "100")
                ltac:(reflexivity) ltac:(reflexivity) ltac:(reflexivity)) as W.
  cbv zeta in W. destruct W as (Hans & Hdb & Hone & _).
  split; [exact Hans |]. split; [now rewrite Hdb | exact Hone].
Defined.

(** X19: when [create_order] raises after a successful order placement,
    the exception leaves [post]: there is no redirect, nothing is
    rolled back, and the database keeps what the committed transaction
    and [create_order] wrote. *)
Theorem X19_create_order_failure_escapes
    h request processor payment_reference verification_data
    d code basket transaction_id d2 d3 e :
  PayTabs_init h = Ok processor ->
  POST request !! "payment_reference" = Some payment_reference ->
  gateway_answers h verify_payment_url verification_data ->
  verification_data !! "response_code" = Some code ->
  py_in code PAYTABS_SUCCESS_CODES = true ->
  resolves_basket h d verification_data basket ->
  verification_data !! "transaction_id" = Some transaction_id ->
  let row := new_row d (POST request) transaction_id (Some basket) in
  handle_payment h verification_data basket (insert_row d row) = (d2, Ok tt) ->
  create_order h basket d2 = (d3, Raise e) ->
  let r := post h request (start d) in
  snd r = Raise e /\
  db (fst r) = d3 /\
  rollbacks (fst r) = 0%nat /\
  orders_created (fst r) = 1%nat.
Proof.
  intros Hinit Href Hverify Hcode Hin Hres Htx row Hpay Hcreate r.
  destruct (post_run_placed h request processor payment_reference verification_data
              Hinit Href Hverify d code basket transaction_id d2 d3 (Raise e)
              Hcode Hin Hres Htx Hpay Hcreate) as (Hans & Hdb & Hone & Hroll & Haudit).
  now repeat split.
Qed.

(** The payment row of the committed transaction stays, and there is no
    order. *)
Lemma X19_create_order_failure_escapes_witness :
  let r := post demo_host_failing_create_order demo_notification (start demo_db) in
  snd r = Raise (OtherError "UnableToPlaceOrder") /\
  length (payment_sources (db (fst r))) = 1%nat /\
  orders (db (fst r)) = [] /\
  rollbacks (fst r) = 0%nat.
Proof.
  assert (Hres : resolves_basket demo_host_failing_create_order demo_db
                   (demo_verified "100" "EDX-100001") (demo_basket (PyStr "SA"))).
  { exists (PyStr "EDX-100001"), (PyInt 1), 1, (demo_basket (PyStr "SA")).
    repeat split; reflexivity. }
  pose proof (X19_create_order_failure_escapes
                demo_host_failing_create_order
                demo_notification demo_processor "123456" (demo_verified "100" "EDX-100001")
                demo_db (PyStr "100") (demo_basket (PyStr "SA")) (PyStr "T1") _ _ _
                ltac:(reflexivity) ltac:(reflexivity) ltac:(intros ?; reflexivity)
                ltac:(reflexivity) ltac:(reflexivity) Hres
                ltac:(reflexivity) ltac:(reflexivity) ltac:(reflexivity)) as W.
  cbv zeta in W. destruct W as (Hans & Hdb & Hroll & _).
  split; [exact Hans |]. rewrite Hdb. split; [reflexivity |]. split; [reflexivity | exact Hroll].
Defined.

(** ** Exceptions that leave [post] *)

(** After an exception in the [try] block: the [finally] block writes the
    audit row from the locals as they are, and the exception goes on. *)
Lemma post_run_raised h request s p f s1 e :
  PayTabs_init h = Ok p ->
  post_try h request (initial_frame, s) = ((f, s1), Raised e) ->
  let row := new_row (db s1) (POST request) (f_transaction_id f) (f_basket f) in
  post h request s =
    ({| trace := trace s1 ++ [EvRecordResponse row]; db := insert_row (db s1) row |},
     Raise e).
Proof.
  intros Hinit Htry. unfold post, post_body. rewrite sbind_unfold. unfold try_finally.
  rewrite Htry. unfold post_finally. cbn. rewrite sbind_call.
  unfold payment_processor. rewrite Hinit. reflexivity.
Qed.

Lemma verify_response_raises h p payment_reference e s :
  PayTabs_init h = Ok p ->
  (forall data, requests_post_json h verify_payment_url data = Raise e) ->
  exists data,
    _verify_response h payment_reference s =
      ({| trace := trace s ++ [EvHttp verify_payment_url data]; db := db s |}, Raise e).
Proof.
  intros Hinit Hgateway.
  destruct (PayTabs_init_Ok _ _ Hinit) as (me & sk & Hme & Hsk).
  unfold _verify_response, payment_processor.
  rewrite Hinit, M_bind_lift_Ok, Hme, M_bind_lift_Ok, Hsk, M_bind_lift_Ok.
  unfold requests_post. rewrite Hgateway.
  match goal with |- context [EvHttp _ ?d] => exists d; generalize d; intros data end.
  reflexivity.
Qed.

(** X20: when the verify call itself raises (the gateway cannot be
    reached, or its answer is not JSON), the exception leaves [post]
    without a redirect; the one call was made, no basket is looked up,
    no order is created, and the audit record is still written, with
    the transaction id ['Unknown'] and no basket. *)
Theorem X20_failed_verify_call_escapes_after_audit
    h request processor payment_reference d e :
  PayTabs_init h = Ok processor ->
  POST request !! "payment_reference" = Some payment_reference ->
  (forall data, requests_post_json h verify_payment_url data = Raise e) ->
  let r := post h request (start d) in
  snd r = Raise e /\
  verify_calls (fst r) = 1%nat /\
  basket_lookups (fst r) = 0%nat /\
  orders_created (fst r) = 0%nat /\
  audit_records (fst r) = [new_row d (POST request) (PyStr "Unknown") None] /\
  db (fst r) = insert_row d (new_row d (POST request) (PyStr "Unknown") None).
Proof.
  intros Hinit Href Hgateway r. subst r.
  assert (Htry : exists data,
             post_try h request (initial_frame, start d) =
               ((initial_frame,
                 {| trace := [EvLog (LogReceivedNotification payment_reference);
                              EvHttp verify_payment_url data];
                    db := d |}),
                Raised e)).
  { unfold post_try. rewrite Href. cbn. rewrite sbind_call.
    match goal with |- context [_verify_response h ?b ?st] =>
      destruct (verify_response_raises h _ b e st Hinit Hgateway) as (data & ->) end.
    now exists data. }
  destruct Htry as (data & Htry).
  rewrite (post_run_raised _ _ _ _ _ _ _ Hinit Htry).
  now repeat split.
Qed.

Lemma X20_failed_verify_call_escapes_after_audit_witness :
  let r := post demo_unreachable_host demo_notification (start demo_db) in
  snd r = Raise (OtherError "ConnectionError") /\
  length (audit_records (fst r)) = 1%nat /\
  length (processor_responses (db (fst r))) = 1%nat.
Proof.
  pose proof (X20_failed_verify_call_escapes_after_audit
                demo_unreachable_host demo_notification demo_processor "123456" demo_db
                (OtherError "ConnectionError")
                ltac:(reflexivity) ltac:(reflexivity) ltac:(intros ?; reflexivity)) as W.
  cbv zeta in W. destruct W as (Hans & _ & _ & _ & Haudit & Hdb).
  split; [exact Hans |]. rewrite Haudit, Hdb. now split.
Defined.

(** X21: when the verified data has no [response_code], or has an
    accepted code and no [reference_no], the subscript raises
    [KeyError] and the exception leaves [post] without a redirect; no
    basket is looked up, no order is created, and the audit record has
    the transaction id ['Unknown'] and no basket. *)
Theorem X21_incomplete_verification_data_escapes
    h request processor payment_reference verification_data d key :
  PayTabs_init h = Ok processor ->
  POST request !! "payment_reference" = Some payment_reference ->
  gateway_answers h verify_payment_url verification_data ->
  (key = "response_code" /\ verification_data !! "response_code" = None) \/
  (key = "reference_no" /\
   (exists code, verification_data !! "response_code" = Some code /\
                 py_in code PAYTABS_SUCCESS_CODES = true) /\
   verification_data !! "reference_no" = None) ->
  let r := post h request (start d) in
  snd r = Raise (KeyError key) /\
  verify_calls (fst r) = 1%nat /\
  basket_lookups (fst r) = 0%nat /\
  orders_created (fst r) = 0%nat /\
  audit_records (fst r) = [new_row d (POST request) (PyStr "Unknown") None].
Proof.
  intros Hinit Href Hverify Hmissing r. subst r.
  assert (Htry : exists data,
             post_try h request (initial_frame, start d) =
               ((set_verification_data verification_data initial_frame,
                 {| trace := [EvLog (LogReceivedNotification payment_reference);
                              EvHttp verify_payment_url data];
                    db := d |}),
                Raised (KeyError key))).
  { unfold post_try. rewrite Href. cbn. rewrite sbind_call.
    match goal with |- context [_verify_response h ?b ?st] =>
      destruct (verify_response_run h _ b _ st Hinit Hverify) as (data & ->) end.
    exists data. cbn. rewrite sbind_call. cbn.
    destruct Hmissing as [[-> Hnone] | (-> & (code & Hcode & Hin) & Hnone)].
    - now rewrite (getitem_None _ _ Hnone).
    - rewrite (getitem_Some _ _ _ Hcode). cbn. rewrite Hin. cbn. rewrite sbind_call. cbn.
      now rewrite (getitem_None _ _ Hnone). }
  destruct Htry as (data & Htry).
  rewrite (post_run_raised _ _ _ _ _ _ _ Hinit Htry).
  now repeat split.
Qed.

Lemma X21_incomplete_verification_data_escapes_witness :
  (let r := post (demo_host ∅ mixin_handle_payment) demo_notification (start demo_db) in
   snd r = Raise (KeyError "response_code") /\ length (audit_records (fst r)) = 1%nat) /\
  (let r := post (demo_host {[ "response_code" := PyStr "100" ]} mixin_handle_payment)
              demo_notification (start demo_db) in
   snd r = Raise (KeyError "reference_no") /\ length (audit_records (fst r)) = 1%nat).
Proof.
  split.
  - pose proof (X21_incomplete_verification_data_escapes
                  (demo_host ∅ mixin_handle_payment) demo_notification demo_processor
                  "123456" ∅ demo_db "response_code"
                  ltac:(reflexivity) ltac:(reflexivity) ltac:(intros ?; reflexivity)
                  ltac:(left; split; reflexivity)) as W.
    cbv zeta in W. destruct W as (Hans & _ & _ & _ & Haudit).
    split; [exact Hans | now rewrite Haudit].
  - pose proof (X21_incomplete_verification_data_escapes
                  (demo_host {[ "response_code" := PyStr "100" ]} mixin_handle_payment)
                  demo_notification demo_processor
                  "123456" {[ "response_code" := PyStr "100" ]} demo_db "reference_no"
                  ltac:(reflexivity) ltac:(reflexivity) ltac:(intros ?; reflexivity)
                  ltac:(right; split; [reflexivity |];
                        split; [exists (PyStr "100"); split; reflexivity | reflexivity]))
      as W.
    cbv zeta in W. destruct W as (Hans & _ & _ & _ & Haudit).
    split; [exact Hans | now rewrite Haudit].
Defined.

(** X22: when the code is accepted and the basket is found but the
    verified data has no [transaction_id], [KeyError] leaves [post]
    without a redirect; no transaction is opened and no order is
    created, and the audit record already carries the basket while its
    transaction id is still ['Unknown']. *)
Theorem X22_missing_transaction_id_records_basket
    h request processor payment_reference verification_data d code basket :
  PayTabs_init h = Ok processor ->
  POST request !! "payment_reference" = Some payment_reference ->
  gateway_answers h verify_payment_url verification_data ->
  verification_data !! "response_code" = Some code ->
  py_in code PAYTABS_SUCCESS_CODES = true ->
  resolves_basket h d verification_data basket ->
  verification_data !! "transaction_id" = None ->
  let r := post h request (start d) in
  let row := new_row d (POST request) (PyStr "Unknown") (Some basket) in
  snd r = Raise (KeyError "transaction_id") /\
  audit_records (fst r) = [row] /\
  ppr_basket row = Some (Basket_id basket) /\
  transactions (fst r) = 0%nat /\
  orders_created (fst r) = 0%nat /\
  db (fst r) = insert_row d row.
Proof.
  intros Hinit Href Hverify Hcode Hin Hres Htx r row. subst r row.
  destruct (get_basket_resolves _ _ _ _ Hres)
    as (refno & bid & evs & Hrefno & Hbid & Hq & Hnv & Hget).
  assert (Htry : exists pre,
             Forall (fun e => quiet e = true) pre /\
             post_try h request (initial_frame, start d) =
               ((set_basket (Some basket)
                   (set_verification_data verification_data initial_frame),
                 {| trace := pre; db := d |}),
                Raised (KeyError "transaction_id"))).
  { unfold post_try. rewrite Href. cbn. rewrite sbind_call.
    match goal with |- context [_verify_response h ?b ?st] =>
      destruct (verify_response_run h _ b _ st Hinit Hverify) as (data & ->) end.
    exists ([EvLog (LogReceivedNotification payment_reference);
             EvHttp verify_payment_url data] ++ evs).
    split; [apply Forall_app; split; [now repeat constructor | exact Hq] |].
    cbn. rewrite sbind_call. cbn.
    rewrite (getitem_Some _ _ _ Hcode). cbn. rewrite Hin. cbn.
    rewrite sbind_call. cbn. rewrite (getitem_Some _ _ _ Hrefno). cbn.
    rewrite sbind_call. cbn. rewrite Hbid. cbn. rewrite sbind_call.
    match goal with |- context [_get_basket h bid ?st] =>
      rewrite (Hget st eq_refl) end.
    cbn. rewrite sbind_call. cbn. now rewrite (getitem_None _ _ Htx). }
  destruct Htry as (pre & Hpre & Htry).
  rewrite (post_run_raised _ _ _ _ _ _ _ Hinit Htry).
  cbn [fst snd trace db f_transaction_id f_basket set_basket set_verification_data
       initial_frame].
  split; [reflexivity |]. split; [observe Hpre |]. split; [reflexivity |].
  split.
  { unfold transactions, count. cbn [trace].
    rewrite List.filter_app, (filter_quiet is_atomic_enter pre) by (exact Hpre || now intros []).
    reflexivity. }
  split; [observe Hpre | reflexivity].
Qed.

Lemma X22_missing_transaction_id_records_basket_witness :
  let r := post (demo_host demo_verified_without_transaction mixin_handle_payment)
             demo_notification (start demo_db) in
  snd r = Raise (KeyError "transaction_id") /\
  ppr_basket <$> audit_records (fst r) = [Some 1] /\
  ppr_transaction_id <$> audit_records (fst r) = [PyStr "Unknown"].
Proof.
  assert (Hres : resolves_basket
                   (demo_host demo_verified_without_transaction mixin_handle_payment)
                   demo_db demo_verified_without_transaction (demo_basket (PyStr "SA"))).
  { exists (PyStr "EDX-100001"), (PyInt 1), 1, (demo_basket (PyStr "SA")).
    repeat split; reflexivity. }
  pose proof (X22_missing_transaction_id_records_basket
                (demo_host demo_verified_without_transaction mixin_handle_payment)
                demo_notification demo_processor "123456"
                demo_verified_without_transaction demo_db (PyStr "100")
                (demo_basket (PyStr "SA"))
                ltac:(reflexivity) ltac:(reflexivity) ltac:(intros ?; reflexivity)
                ltac:(reflexivity) ltac:(reflexivity) Hres ltac:(reflexivity)) as W.
  cbv zeta in W. destruct W as (Hans & Haudit & _).
  split; [exact Hans |]. rewrite Haudit. split; reflexivity.
Defined.
